(** * encoder_reading: the analog-encoder polling script [src/a_in.py]

    The script reads the analog inputs of a DAQ device in a polling loop,
    unwraps the voltage of every encoder channel against the full-scale
    voltage read from channel 0, and prints the unwrapped angle in radians.

    The development embeds the part of [main] that starts after the
    terminal has been cleared (source lines 103-144, with the handlers of
    lines 146-153): the two per-channel lists, the initial read of every
    channel, the [while True] loop with its [try]/[except] clauses, and the
    lines it prints.

    The device is an oracle: what each call of [a_in] hands back, a
    voltage or an exception raised while the call blocks (an interrupt
    from the keyboard, an error of the vendor library).  The loop never
    ends by itself, so a run is observed after a number of turns.

    Python evaluates the arithmetic of the script on whatever numbers the
    device hands back; the script is therefore written once over an
    interface of numbers ([Number]) and read at two instances:
    - [binary64], the IEEE 754 doubles of CPython ([float] of the kernel),
      which is the script as it runs;
    - [exact], the rationals, which is the script without rounding. *)

From Stdlib Require Import ZArith QArith Qcanon Floats List String Ascii Lia.
From Stdlib Require Import DecimalString Lqa.
From stdpp Require Import base list.

Set Warnings "-inexact-float".
Local Open Scope string_scope.

(** ** Exceptions *)

(** The exception classes the script names or can meet.  [ULException] is
    the error class of the vendor library; [RuntimeError] carries its
    message because the outermost handler prints it. *)
Inductive exn : Type :=
  | ValueError
  | NameError
  | SyntaxError
  | KeyboardInterrupt
  | RuntimeError (msg : string)
  | ZeroDivisionError
  | TypeError
  | IndexError
  | ULException.

(** The result of evaluating a Python expression or statement. *)
Inductive outcome (X : Type) : Type :=
  | Return (x : X)
  | Raise (e : exn).
Arguments Return {X} x.
Arguments Raise {X} e.

(** ** Numbers *)

(** What the script asks of its numbers: [+], [-], [*], [/], [<] (with
    [x > y] read as [y < x]), the literals [0.0], [0.9], [-1.0], [2] and
    [math.pi], and the format [{:.6f}]. [div] is the quotient for a divisor
    that is not zero; [is_zero] is the test that makes [/] raise. *)
Class Number (A : Type) : Type := {
  add : A -> A -> A;
  sub : A -> A -> A;
  mul : A -> A -> A;
  div : A -> A -> A;
  is_zero : A -> bool;
  lt : A -> A -> bool;
  lit_0_0 : A;
  lit_0_9 : A;
  lit_minus_1_0 : A;
  lit_2 : A;
  math_pi : A;
  format_6f : A -> string
}.

Definition gt {A} `{Number A} (x y : A) : bool := lt y x.

(** [x / y]: Python raises [ZeroDivisionError] when the divisor is zero. *)
Definition truediv {A} `{Number A} (x y : A) : outcome A :=
  if is_zero y then Raise ZeroDivisionError else Return (div x y).

(** ** Decimal output *)

Definition newline : string := String (ascii_of_nat 10) EmptyString.
Definition escape : string := String (ascii_of_nat 27) EmptyString.

(** [str(n)] for a non-negative integer. *)
Definition str_N (n : N) : string := NilZero.string_of_uint (N.to_uint n).
Definition str_nat (n : nat) : string := str_N (N.of_nat n).

Definition digit (d : Z) : ascii := ascii_of_nat (48 + Z.to_nat (d mod 10)).

(** The six decimals of [n], most significant first. *)
Definition six_digits (n : Z) : string :=
  String (digit (n / 100000))
 (String (digit (n / 10000))
 (String (digit (n / 1000))
 (String (digit (n / 100))
 (String (digit (n / 10))
 (String (digit n) EmptyString))))).

(** [num / den] rounded to an integer, ties to the even neighbour. *)
Definition round_half_even (num den : Z) : Z :=
  let q := (num / den)%Z in
  let r := (num mod den)%Z in
  match (2 * r ?= den)%Z with
  | Lt => q
  | Gt => (q + 1)%Z
  | Eq => if Z.even q then q else (q + 1)%Z
  end.

Definition sign_string (negative : bool) : string :=
  if negative then "-" else "".

(** The fixed-point text of [num / den >= 0] with six decimals, as
    [{:.6f}] prints it: the exact value, correctly rounded. *)
Definition fixed6 (negative : bool) (num den : Z) : string :=
  let n := round_half_even (num * 1000000) den in
  sign_string negative ++ str_N (Z.to_N (n / 1000000)) ++ "."
    ++ six_digits (n mod 1000000).

(** ** The script as it runs: IEEE 754 doubles *)

Definition format_6f_float (x : float) : string :=
  match Prim2SF x with
  | S754_nan => "nan"
  | S754_infinity s => sign_string s ++ "inf"
  | S754_zero s => fixed6 s 0 1
  | S754_finite s m e =>
      match e with
      | Zneg p => fixed6 s (Zpos m) (Z.pow_pos 2 p)
      | _ => fixed6 s (Zpos m * 2 ^ e) 1
      end
  end.

#[export] Instance binary64 : Number float := {
  add := PrimFloat.add;
  sub := PrimFloat.sub;
  mul := PrimFloat.mul;
  div := PrimFloat.div;
  is_zero := fun y => PrimFloat.eqb y 0%float;
  lt := PrimFloat.ltb;
  lit_0_0 := 0.0%float;
  lit_0_9 := 0.9%float;
  lit_minus_1_0 := (-1.0)%float;
  lit_2 := 2%float;
  math_pi := 3.141592653589793%float;
  format_6f := format_6f_float
}.

(** ** The script without rounding: rationals *)

Definition Qc_ltb (x y : Qc) : bool :=
  match (x ?= y)%Qc with Lt => true | _ => false end.

Definition format_6f_Qc (x : Qc) : string :=
  fixed6 (Qc_ltb x 0%Qc) (Z.abs (Qnum x)) (Zpos (Qden x)).

(** [math.pi] is the double nearest to pi, 884279719003555 / 2^48. *)
Definition exact : Number Qc := {|
  add := Qcplus;
  sub := Qcminus;
  mul := Qcmult;
  div := Qcdiv;
  is_zero := fun y => Qc_eq_bool y 0%Qc;
  lt := Qc_ltb;
  lit_0_0 := 0%Qc;
  lit_0_9 := Q2Qc (9 # 10);
  lit_minus_1_0 := Q2Qc (-1 # 1);
  lit_2 := Q2Qc (2 # 1);
  math_pi := Q2Qc (884279719003555 # 281474976710656);
  format_6f := format_6f_Qc
|}.

(** ** State, output and exceptions *)

(** The mutable objects of [main] that the loop touches: the two lists
    indexed by channel and the text written to the terminal, one entry per
    [print] or [stdout.write] call. *)
Record world (A : Type) : Type := World {
  data_vol_pre : list A;
  data_vol_incr : list A;
  stdout : list string
}.
Arguments World {A} _ _ _.
Arguments data_vol_pre {A} _.
Arguments data_vol_incr {A} _.
Arguments stdout {A} _.

(** A statement runs on a world and either returns or raises; the world
    it leaves behind keeps every assignment made before the exception. *)
Definition M (A X : Type) : Type := world A -> outcome X * world A.

Definition ret {A X} (x : X) : M A X := fun w => (Return x, w).

Definition bind {A X Y} (m : M A X) (k : X -> M A Y) : M A Y :=
  fun w =>
    match m w with
    | (Return x, w') => k x w'
    | (Raise e, w') => (Raise e, w')
    end.

Definition lift {A X} (o : outcome X) : M A X := fun w => (o, w).

Notation "x <- m ;; k" := (bind m (fun x => k))
  (at level 100, m at next level, right associativity).
Notation "m ;;; k" := (bind m (fun _ => k))
  (at level 100, right associativity).

(** [for x in xs: body]. *)
Fixpoint for_in {A} (xs : list nat) (body : nat -> M A unit) : M A unit :=
  match xs with
  | [] => ret tt
  | x :: xs' => body x ;;; for_in xs' body
  end.

(** [range(start, stop)] for [start >= 0]. *)
Definition range (start stop : Z) : list nat :=
  seq (Z.to_nat start) (Z.to_nat (stop - start)).

(** [l[i]] and [l[i] = x] on a Python list, for an index that is not
    negative: out of range raises [IndexError]. *)
Definition getitem {A} (l : list A) (i : nat) : outcome A :=
  match l !! i with
  | Some x => Return x
  | None => Raise IndexError
  end.

Definition setitem {A} (l : list A) (i : nat) (x : A) : outcome (list A) :=
  if decide (i < length l) then Return (<[i:=x]> l) else Raise IndexError.

Definition get_pre {A} (channel : nat) : M A A :=
  fun w => (getitem (data_vol_pre w) channel, w).

Definition get_incr {A} (channel : nat) : M A A :=
  fun w => (getitem (data_vol_incr w) channel, w).

Definition set_pre {A} (channel : nat) (x : A) : M A unit :=
  fun w =>
    match setitem (data_vol_pre w) channel x with
    | Return l => (Return tt, World l (data_vol_incr w) (stdout w))
    | Raise e => (Raise e, w)
    end.

Definition set_incr {A} (channel : nat) (x : A) : M A unit :=
  fun w =>
    match setitem (data_vol_incr w) channel x with
    | Return l => (Return tt, World (data_vol_pre w) l (stdout w))
    | Raise e => (Raise e, w)
    end.

Definition write {A} (s : string) : M A unit :=
  fun w => (Return tt, World (data_vol_pre w) (data_vol_incr w) (stdout w ++ [s])).

(** [print(...)] writes its text followed by a newline. *)
Definition line (s : string) : string := s ++ newline.
Definition print {A} (s : string) : M A unit := write (line s).

(** [reset_cursor()], source lines 156-158. *)
Definition reset_cursor {A} : M A unit := write (escape ++ "[1;1H").

(** ** Vocabulary of the statements *)

(** The text of a line that reports channel 0 starts like this. *)
Definition names_channel_0 (s : string) : bool := String.prefix "Channel(0)" s.

(** Equal as numbers: the same double, or two doubles that [==] holds of
    (the two zeros). *)
Definition same_value (x y : float) : Prop :=
  x = y \/ (x =? y)%float = true.

(** [text] is what [{:.6f}] makes of the double [x].  For a finite [x]:
    the sign, then the decimal number with six decimals that is nearest
    to the exact absolute value of [x], the even one of two that are
    equally near; [n] counts its millionths, [d1 .. d6] are its six
    decimals. *)
Definition six_places (x : float) (text : string) : Prop :=
  match Prim2SF x with
  | S754_nan => text = "nan"
  | S754_infinity s => text = (if s then "-inf" else "inf")
  | S754_zero s => text = (if s then "-0.000000" else "0.000000")
  | S754_finite s m e =>
      exists (n : Z) (d1 d2 d3 d4 d5 d6 : nat),
        let num := (Zpos m * 2 ^ Z.max e 0 * 1000000)%Z in
        let den := (2 ^ Z.max (- e) 0)%Z in
        (0 <= n)%Z
        /\ (2 * Z.abs (num - n * den) <= den)%Z
        /\ ((2 * Z.abs (num - n * den) = den)%Z -> Z.even n = true)
        /\ d1 <= 9 /\ d2 <= 9 /\ d3 <= 9 /\ d4 <= 9 /\ d5 <= 9 /\ d6 <= 9
        /\ (n mod 1000000
            = 100000 * Z.of_nat d1 + 10000 * Z.of_nat d2 + 1000 * Z.of_nat d3
              + 100 * Z.of_nat d4 + 10 * Z.of_nat d5 + Z.of_nat d6)%Z
        /\ text
           = (if s then "-" else "")
               ++ NilZero.string_of_uint (N.to_uint (Z.to_N (n / 1000000)))
               ++ "."
               ++ String (ascii_of_nat (48 + d1))
                    (String (ascii_of_nat (48 + d2))
                    (String (ascii_of_nat (48 + d3))
                    (String (ascii_of_nat (48 + d4))
                    (String (ascii_of_nat (48 + d5))
                    (String (ascii_of_nat (48 + d6)) "")))))
  end.

(** An integer as a rational. *)
Definition Z2Qc (j : Z) : Qc := Q2Qc (inject_Z j).

(** The value of a double as a rational (zero for a zero, an infinity or
    a NaN). *)
Definition exact_value (x : float) : Q :=
  match Prim2SF x with
  | S754_finite s m e => (if s then - (Zpos m # 1) else (Zpos m # 1)) * 2 ^ e
  | _ => 0
  end.

(** ** Worlds and devices of the examples *)

(** A world whose channel 1 has previous voltage [p] and an accumulator
    of [0.0]. *)
Definition one_channel (p : float) : world float :=
  World (<[1:=p]> (replicate 8 0%float)) (replicate 8 0%float) [].

(** A world whose channels 0 and 1 have been read by the initial pass of
    [wrap_device]. *)
Definition read_once : world float :=
  World [5.0; 0.1; 0; 0; 0; 0; 0; 0]%float (replicate 8 0%float) [].

(** A device that hands back [v] on every read. *)
Definition constant_device (v : float) (k c : nat) : outcome float := Return v.

(** Reference voltage 5.0 on channel 0; on the other channels 0.1 at the
    initial read, 0.2 in the first turn and 4.8 from the second turn on:
    the second turn crosses the tolerance 4.5. *)
Definition wrap_volt (k c : nat) : float :=
  match c with
  | O => 5.0%float
  | _ => match k with O => 0.1%float | 1 => 0.2%float | _ => 4.8%float end
  end.

Definition wrap_device (k c : nat) : outcome float := Return (wrap_volt k c).

(** The same reference; on the other channels 0.1, 0.2, then 0.4. *)
Definition slow_volt (k c : nat) : float :=
  match c with
  | O => 5.0%float
  | _ => match k with O => 0.1%float | 1 => 0.2%float | _ => 0.4%float end
  end.

Definition slow_device (k c : nat) : outcome float := Return (slow_volt k c).

(** Channel 0 reads 5.0 at the initial read and in the first turn, and
    0.0 from the second turn on; the other channels read 1.0. *)
Definition dead_volt (k c : nat) : float :=
  match c with
  | O => match k with O | 1 => 5.0%float | _ => 0.0%float end
  | _ => 1.0%float
  end.

Definition dead_device (k c : nat) : outcome float := Return (dead_volt k c).

(** Rationals: reference 5 on channel 0; on the other channels 1/10 at
    the initial read, 1/5 in the first turn and 24/5 afterwards. *)
Definition wrap_volt_exact (k c : nat) : Qc :=
  match c with
  | O => Q2Qc (5 # 1)
  | _ => match k with
         | O => Q2Qc (1 # 10)
         | 1 => Q2Qc (1 # 5)
         | _ => Q2Qc (24 # 5)
         end
  end.

Definition wrap_device_exact (k c : nat) : outcome Qc :=
  Return (wrap_volt_exact k c).

(** Two different doubles are told apart by their decoding. *)
Ltac different_doubles :=
  let E := fresh "E" in
  intros E;
  apply (f_equal (fun o : option float =>
                    match o with Some x => Prim2SF x | None => S754_nan end)) in E;
  vm_compute in E; discriminate E.

(** ** The program *)

Section Script.

Context {A : Type} `{Number A}.

(** What [main] learnt before the loop: the channel count of the input
    mode and the two strings of the device descriptor. *)
Variable number_of_channels : Z.
Variables dev_string unique_id : string.

(** The device: [ai_device k channel] is what the call
    [ai_device.a_in(channel, ...)] of pass [k] hands back, a voltage or an
    exception raised during the call.  Pass [0] is the initial read of
    lines 108-111, pass [k >= 1] the [k]-th turn of the loop; within one
    pass every channel is read at most once. *)
Variable ai_device : nat -> nat -> outcome A.

Definition a_in (k channel : nat) : M A A := lift (ai_device k channel).

Definition low_channel : Z := 0.

(** Lines 36 and 83-84. *)
Definition high_channel : Z :=
  if (7 >=? number_of_channels)%Z then (number_of_channels - 1)%Z else 7%Z.

Definition tolerance_ratio : A := lit_0_9.

(** Lines 105-106, and the terminal just cleared. *)
Definition fresh : world A :=
  World (replicate 8 lit_0_0) (replicate 8 lit_0_0) [].

(** Lines 108-111: the body of the [for], and the loop. *)
Definition initial_read (channel : nat) : M A unit :=
  v <- a_in 0 channel ;; set_pre channel v.

Definition initialise : M A unit :=
  for_in (range low_channel (high_channel + 1)) initial_read.

(** [data_vol - data_vol_pre[channel]]. *)
Definition delta (data_vol : A) (channel : nat) : M A A :=
  pre <- get_pre channel ;; ret (sub data_vol pre).

(** [data_vol_incr[channel] += x]. *)
Definition incr_add (channel : nat) (x : A) : M A unit :=
  acc <- get_incr channel ;; set_incr channel (add acc x).

(** The text of lines 137-138. *)
Definition data_line (channel : nat) (data_rad : A) : string :=
  "Channel(" ++ str_nat channel ++ ") Data: " ++ format_6f data_rad.

(** Lines 126-138, the body of the [for] over the channels. *)
Definition channel_body (k : nat) (data_vol_max tolerance : A)
    (channel : nat) : M A unit :=
  data_vol <- a_in k channel ;;
  d <- delta data_vol channel ;;
  (if gt d tolerance then
     d <- delta data_vol channel ;;
     incr_add channel (sub d data_vol_max)
   else
     d <- delta data_vol channel ;;
     if lt d (mul lit_minus_1_0 tolerance) then
       d <- delta data_vol channel ;;
       incr_add channel (add d data_vol_max)
     else
       d <- delta data_vol channel ;;
       incr_add channel d) ;;;
  acc <- get_incr channel ;;
  q <- lift (truediv acc data_vol_max) ;;
  let data_rad := mul (mul q lit_2) math_pi in
  set_pre channel data_vol ;;;
  print (data_line channel data_rad).

(** Lines 115-140, the body of the [try] inside [while True].  The
    [sleep(0.001)] that ends it changes nothing the model keeps. *)
Definition iteration (k : nat) : M A unit :=
  reset_cursor ;;;
  print ("Please enter CTRL + C to terminate the process" ++ newline) ;;;
  print ("Active DAQ device: " ++ dev_string ++ " (" ++ unique_id ++ ")"
           ++ newline) ;;;
  data_vol_max <- a_in k 0 ;;
  let tolerance := mul data_vol_max tolerance_ratio in
  for_in (range (low_channel + 1) (high_channel + 1))
    (channel_body k data_vol_max tolerance).

(** Line 141: the classes whose exceptions end the loop with [break]. *)
Definition loop_catches (e : exn) : bool :=
  match e with
  | ValueError | NameError | SyntaxError => true
  | _ => false
  end.

(** How the [while True] of line 113 stands after some turns. *)
Inductive loop_state : Type :=
  | Looping
  | Broken
  | Raised (e : exn).

(** [fuel] turns of the loop, the first of them pass [k]. *)
Fixpoint while_true (fuel k : nat) (w : world A) : loop_state * world A :=
  match fuel with
  | O => (Looping, w)
  | S fuel' =>
      match iteration k w with
      | (Return _, w') => while_true fuel' (S k) w'
      | (Raise e, w') =>
          if loop_catches e then (Broken, w') else (Raised e, w')
      end
  end.

(** How [main] stands: still polling, returned, or left by an exception
    that none of its handlers took. *)
Inductive main_state : Type :=
  | Polling
  | Returned
  | Uncaught (e : exn).

(** Lines 143-147: [except KeyboardInterrupt: pass], then
    [except RuntimeError as error: print('\n', error)]; the [finally]
    clause releases the device and lets any other exception through. *)
Definition handlers (e : exn) (w : world A) : main_state * world A :=
  match e with
  | KeyboardInterrupt => (Returned, w)
  | RuntimeError msg => (Returned, snd (print (newline ++ " " ++ msg) w))
  | _ => (Uncaught e, w)
  end.

(** Lines 103-153, observed after [fuel] turns of the loop. *)
Definition main (fuel : nat) : main_state * world A :=
  match initialise fresh with
  | (Raise e, w) => handlers e w
  | (Return _, w) =>
      match while_true fuel 1 w with
      | (Looping, w') => (Polling, w')
      | (Broken, w') => (Returned, w')
      | (Raised e, w') => handlers e w'
      end
  end.

(** ** What an update, a turn and a run compute *)

(** The amount lines 129-134 add to the accumulator for a difference [d]
    between the new and the previous voltage. *)
Definition compensated (data_vol_max tolerance d : A) : A :=
  if gt d tolerance then sub d data_vol_max
  else if lt d (mul lit_minus_1_0 tolerance) then add d data_vol_max
  else d.

(** Line 135: [acc / data_vol_max * 2 * math.pi], read from the left. *)
Definition radians (acc data_vol_max : A) : A :=
  mul (mul (div acc data_vol_max) lit_2) math_pi.

(** The world a completed update of [channel] leaves. *)
Definition updated (channel : nat) (data_vol acc' data_vol_max : A)
    (w : world A) : world A :=
  World (<[channel:=data_vol]> (data_vol_pre w))
        (<[channel:=acc']> (data_vol_incr w))
        (stdout w ++ [line (data_line channel (radians acc' data_vol_max))]).

(** The line a sweep prints for [channel], read off the world it leaves. *)
Definition report (w' : world A) (data_vol_max : A) (channel : nat) : string :=
  match data_vol_incr w' !! channel with
  | Some acc => line (data_line channel (radians acc data_vol_max))
  | None => ""
  end.

(** The channels the loop sweeps, [range(low_channel + 1, high_channel + 1)]. *)
Definition swept : list nat := range (low_channel + 1) (high_channel + 1).

(** Both lists have the eight entries lines 105-106 give them. *)
Definition well_formed (w : world A) : Prop :=
  length (data_vol_pre w) = 8 /\ length (data_vol_incr w) = 8.

(** What a turn writes before it reads the device (lines 115-118). *)
Definition banner : list string :=
  [ escape ++ "[1;1H";
    line ("Please enter CTRL + C to terminate the process" ++ newline);
    line ("Active DAQ device: " ++ dev_string ++ " (" ++ unique_id ++ ")"
            ++ newline) ].

Definition with_banner (w : world A) : world A :=
  World (data_vol_pre w) (data_vol_incr w) (stdout w ++ banner).

(** For a device that hands back the voltage [volt k c] at pass [k] and
    channel [c]: the amount turn [i] adds to the accumulator of [c], and
    the accumulator after [n] turns. *)
Definition increment (volt : nat -> nat -> A) (c i : nat) : A :=
  let data_vol_max := volt i 0 in
  compensated data_vol_max (mul data_vol_max tolerance_ratio)
    (sub (volt i c) (volt (i - 1) c)).

Definition total (volt : nat -> nat -> A) (c n : nat) : A :=
  fold_left add (map (increment volt c) (seq 1 n)) lit_0_0.

(** The world after [n] completed turns. *)
Definition tracks (volt : nat -> nat -> A) (n : nat) (w : world A) : Prop :=
  well_formed w
  /\ (forall c, c ∈ swept ->
        data_vol_pre w !! c = Some (volt n c)
        /\ data_vol_incr w !! c = Some (total volt c n))
  /\ (forall c, c ∉ swept -> c < 8 -> data_vol_incr w !! c = Some lit_0_0).

End Script.

(** ** Before and after the loop *)

(** The rest of [main]: lines 31-101, which find, select and connect the
    device and print what they found, and the [finally] clause of lines
    149-153.  The vendor library and the operator are a [bench]: what
    each call hands back.  The calls that change the device are recorded
    in the order they are made. *)

(** A device descriptor, with the three attributes the script reads. *)
Record descriptor : Type := Descriptor {
  product_name : string;
  unique_id : string;
  dev_string : string
}.

Inductive AiInputMode : Type :=
  | SINGLE_ENDED
  | DIFFERENTIAL.

(** [input_mode.name]. *)
Definition mode_name (input_mode : AiInputMode) : string :=
  match input_mode with
  | SINGLE_ENDED => "SINGLE_ENDED"
  | DIFFERENTIAL => "DIFFERENTIAL"
  end.

Record bench : Type := Bench {
  (** [get_daq_device_inventory(interface_type)] *)
  inventory : list descriptor;
  (** [int(input(...))] of lines 50-53: the number typed, or the
      exception of [input] or [int] *)
  typed : outcome Z;
  (** whether [daq_device.get_ai_device()] is an object and not [None] *)
  analog_input : bool;
  (** [daq_device.get_descriptor()] *)
  described : descriptor;
  (** [daq_device.connect(connection_code=0)]: it returns or raises *)
  connect : outcome unit;
  (** [ai_info.get_num_chans_by_mode(mode)] *)
  num_chans_by_mode : AiInputMode -> Z;
  (** [ai_info.get_ranges(mode)], each range by its name *)
  ranges_by_mode : AiInputMode -> list string;
  (** [input('\nHit ENTER to continue\n')]: it returns or raises *)
  enter : outcome unit;
  (** what [daq_device.is_connected()] answers in the [finally] clause *)
  is_connected : bool
}.

(** The calls on [daq_device] that act on the device. *)
Inductive call : Type :=
  | Connect
  | Disconnect
  | Release.

(** The terminal, the calls made so far, and the variable [daq_device]
    ([None] until line 58 assigns it). *)
Record session : Type := Session {
  console : list string;
  calls : list call;
  daq_device : option descriptor
}.

Definition Setup (X : Type) : Type := session -> outcome X * session.

Definition pure {X} (x : X) : Setup X := fun st => (Return x, st).

Definition raise {X} (e : exn) : Setup X := fun st => (Raise e, st).

Definition and_then {X Y} (m : Setup X) (k : X -> Setup Y) : Setup Y :=
  fun st =>
    match m st with
    | (Return x, st') => k x st'
    | (Raise e, st') => (Raise e, st')
    end.

Notation "x <~ m ;; k" := (and_then m (fun x => k))
  (at level 100, m at next level, right associativity).
Notation "m ~;; k" := (and_then m (fun _ => k))
  (at level 100, right associativity).

(** The outcome of a call of the library or of [input]. *)
Definition await {X} (o : outcome X) : Setup X := fun st => (o, st).

Definition say (s : string) : Setup unit :=
  fun st => (Return tt, Session (console st ++ [s]) (calls st) (daq_device st)).

Definition made (c : call) : Setup unit :=
  fun st => (Return tt, Session (console st) (calls st ++ [c]) (daq_device st)).

(** [daq_device = DaqDevice(...)]. *)
Definition assign_daq_device (d : descriptor) : Setup unit :=
  fun st => (Return tt, Session (console st) (calls st) (Some d)).

(** [system('clear')]. *)
Definition clear : Setup unit :=
  fun st => (Return tt, Session [] (calls st) (daq_device st)).

Fixpoint for_each (xs : list nat) (body : nat -> Setup unit) : Setup unit :=
  match xs with
  | [] => pure tt
  | x :: xs' => body x ~;; for_each xs' body
  end.

(** [str(n)] for an integer. *)
Definition str_Z (n : Z) : string := NilZero.string_of_int (Z.to_int n).

(** [l[i]] for any integer index: a negative one counts from the end. *)
Definition getitem_Z {X} (l : list X) (i : Z) : outcome X :=
  let j := if (i <? 0)%Z then (i + Z.of_nat (length l))%Z else i in
  if (j <? 0)%Z then Raise IndexError else getitem l (Z.to_nat j).

(** What the loop is started with. *)
Record settings : Type := Settings {
  descriptor_of : descriptor;
  input_mode : AiInputMode;
  number_of_channels : Z;
  range_name : string
}.

(** Lines 73-79. *)
Definition choose_mode (b : bench) : AiInputMode :=
  if (num_chans_by_mode b SINGLE_ENDED <=? 0)%Z then DIFFERENTIAL
  else SINGLE_ENDED.

(** Lines 33 and 87-89. *)
Definition range_index (ranges : list string) : Z :=
  if (0 >=? Z.of_nat (length ranges))%Z then (Z.of_nat (length ranges) - 1)%Z
  else 0%Z.

(** Lines 47-48, the body of the [for] over the devices found. *)
Definition show_device (devices : list descriptor) (i : nat) : Setup unit :=
  d <~ await (getitem devices i) ;;
  say (line ("  [" ++ str_nat i ++ "] " ++ product_name d
               ++ " (" ++ unique_id d ++ ")")).

(** Lines 40-48: the devices found, or the error that there is none. *)
Definition list_devices (b : bench) : Setup unit :=
  let devices := inventory b in
  let number_of_devices := length devices in
  if Nat.eqb number_of_devices 0 then
    raise (RuntimeError "Error: No DAQ devices found")
  else
    say (line ("Found " ++ str_nat number_of_devices ++ " DAQ device(s):")) ~;;
    for_each (range 0 (Z.of_nat number_of_devices)) (show_device devices).

(** Lines 50-58: the operator's choice and the device object. *)
Definition select_device (b : bench) : Setup unit :=
  let devices := inventory b in
  let number_of_devices := length devices in
  say (newline ++ "Please select a DAQ device, enter a number"
         ++ " between 0 and " ++ str_Z (Z.of_nat number_of_devices - 1)
         ++ ": ") ~;;
  descriptor_index <~ await (typed b) ;;
  if negb ((0 <=? descriptor_index)%Z
           && (descriptor_index <? Z.of_nat number_of_devices)%Z) then
    raise (RuntimeError "Error: Invalid descriptor index")
  else
    d <~ await (getitem_Z devices descriptor_index) ;;
    assign_daq_device d.

(** The message of lines 63-64. *)
Definition no_analog_input_message : string :=
  "Error: The DAQ device does not support analog input".

(** Lines 61-101: the connection, the input mode, the channels and the
    range, what is printed about them, and the cleared terminal. *)
Definition connect_and_report (b : bench) : Setup settings :=
  if negb (analog_input b) then
    raise (RuntimeError no_analog_input_message)
  else
    let descriptor := described b in
    say (line (newline ++ "Connecting to " ++ dev_string descriptor
                 ++ " - please wait...")) ~;;
    made Connect ~;;
    await (connect b) ~;;
    let input_mode := choose_mode b in
    let number_of_channels := num_chans_by_mode b input_mode in
    let ranges := ranges_by_mode b input_mode in
    say (line (newline ++ dev_string descriptor ++ " ready")) ~;;
    say (line "    Function demonstrated: ai_device.a_in()") ~;;
    say (line ("    Channels:  " ++ str_Z low_channel ++ " - "
                 ++ str_Z (high_channel number_of_channels))) ~;;
    say (line ("    Input mode:  " ++ mode_name input_mode)) ~;;
    r <~ await (getitem_Z ranges (range_index ranges)) ;;
    say (line ("    Range:  " ++ r)) ~;;
    say (newline ++ "Hit ENTER to continue" ++ newline) ~;;
    (match enter b with
     | Raise NameError | Raise SyntaxError => pure tt
     | o => await o
     end) ~;;
    clear ~;;
    pure (Settings descriptor input_mode number_of_channels r).

(** Lines 40-101. *)
Definition setup (b : bench) : Setup settings :=
  list_devices b ~;; select_device b ~;; connect_and_report b.

(** Lines 149-153. *)
Definition cleanup (b : bench) (st : session) : session :=
  match daq_device st with
  | None => st
  | Some _ =>
      Session (console st)
        (calls st ++ (if is_connected b then [Disconnect] else []) ++ [Release])
        (daq_device st)
  end.

(** The session before line 40. *)
Definition start : session := Session [] [] None.

(** [main] from its first line: the setup, the loop observed after
    [fuel] turns, and, once the loop is left, the handler of line 146 for
    what the setup raised and the [finally] clause. *)
Definition whole_main {A} `{Number A} (b : bench)
    (ai_device : nat -> nat -> outcome A) (fuel : nat)
    : main_state * session :=
  match setup b start with
  | (Raise (RuntimeError msg), st) =>
      (Returned,
       cleanup b (Session (console st ++ [line (newline ++ " " ++ msg)])
                    (calls st) (daq_device st)))
  | (Raise e, st) => (Uncaught e, cleanup b st)
  | (Return s, st) =>
      let d := descriptor_of s in
      match main (number_of_channels s) (dev_string d) (unique_id d)
              ai_device fuel with
      | (Polling, w) => (Polling, Session (stdout w) (calls st) (daq_device st))
      | (state, w) =>
          (state, cleanup b (Session (stdout w) (calls st) (daq_device st)))
      end
  end.

(** What lines 61-101 start the loop with when nothing raises and the
    first range is [r0]. *)
Definition reported (b : bench) (r0 : string) : settings :=
  Settings (described b) (choose_mode b)
    (num_chans_by_mode b (choose_mode b)) r0.

(** ** Benches of the examples *)

Definition board : descriptor :=
  Descriptor "USB-1608G" "01A2B3C4" "USB-1608G (01A2B3C4)".

Definition other_board : descriptor :=
  Descriptor "USB-1208FS" "0FFF" "USB-1208FS (0FFF)".

Definition chans (input_mode : AiInputMode) : Z :=
  match input_mode with
  | SINGLE_ENDED => 16%Z
  | DIFFERENTIAL => 8%Z
  end.

(** Two boards, the operator types 1, everything answers. *)
Definition good_bench : bench :=
  Bench [board; other_board] (Return 1%Z) true other_board (Return tt)
    chans (fun _ => ["BIP10VOLTS"; "BIP5VOLTS"]) (Return tt) true.

(** No board at all. *)
Definition bare_bench : bench :=
  Bench [] (Return 0%Z) true board (Return tt) chans (fun _ => []) (Return tt) false.

(** The operator types 2, one more than the last index. *)
Definition wrong_index_bench : bench :=
  Bench [board; other_board] (Return 2%Z) true other_board (Return tt)
    chans (fun _ => ["BIP10VOLTS"]) (Return tt) true.

(** The operator types a text that is no number. *)
Definition mistyped_bench : bench :=
  Bench [board; other_board] (Raise ValueError) true other_board (Return tt)
    chans (fun _ => ["BIP10VOLTS"]) (Return tt) true.

(** The board chosen has no analog input. *)
Definition digital_bench : bench :=
  Bench [board; other_board] (Return 0%Z) false board (Return tt)
    chans (fun _ => ["BIP10VOLTS"]) (Return tt) false.

(** The input mode chosen has no range. *)
Definition rangeless_bench : bench :=
  Bench [board; other_board] (Return 0%Z) true board (Return tt)
    chans (fun _ => []) (Return tt) true.

(** A device whose reference read raises [e] in the second turn. *)
Definition failing_device (e : exn) (k c : nat) : outcome float :=
  match k, c with
  | 2, O => Raise e
  | _, _ => Return (wrap_volt k c)
  end.

(** A device whose initial read of channel 1 raises [e]. *)
Definition unready_device (e : exn) (k c : nat) : outcome float :=
  match k, c with
  | O, 1 => Raise e
  | _, _ => Return (wrap_volt k c)
  end.

(** A device that reads as [wrap_device] on the channels below 3 and
    raises elsewhere. *)
Definition narrow_device (k c : nat) : outcome float :=
  if (c <? 3)%nat then Return (wrap_volt k c) else Raise ULException.

(** A sensor turning forwards by 3/10 of a volt per read, under a full
    scale of 5: its position, the full scales passed and its voltage. *)
Definition turning_position (i : nat) : Qc :=
  Q2Qc ((49 # 10) + inject_Z (Z.of_nat i) * (3 # 10))%Q.

Definition turning_turns (i : nat) : Z :=
  match i with O => 0%Z | _ => 1%Z end.

Definition turning_volt (k c : nat) : Qc :=
  match c with
  | O => Q2Qc (5 # 1)
  | _ => (turning_position k - Z2Qc (turning_turns k) * Q2Qc (5 # 1))%Qc
  end.

Definition turning_device (k c : nat) : outcome Qc := Return (turning_volt k c).

(** * Facts about the polling loop *)

Section ScriptFacts.

Context {A : Type} `{Number A}.
Variable number_of_channels : Z.
Variables dev_string unique_id : string.
Variable ai_device : nat -> nat -> outcome A.

Local Abbreviation a_in := (a_in ai_device).
Local Abbreviation high_channel := (high_channel number_of_channels).
Local Abbreviation initial_read := (initial_read ai_device).
Local Abbreviation initialise := (initialise number_of_channels ai_device).
Local Abbreviation channel_body := (channel_body ai_device).
Local Abbreviation iteration :=
  (iteration number_of_channels dev_string unique_id ai_device).
Local Abbreviation while_true :=
  (while_true number_of_channels dev_string unique_id ai_device).
Local Abbreviation main := (main number_of_channels dev_string unique_id ai_device).
Local Abbreviation swept := (swept number_of_channels).
Local Abbreviation banner := (banner dev_string unique_id).
Local Abbreviation with_banner := (with_banner dev_string unique_id).
Local Abbreviation tracks := (tracks number_of_channels).

(** ** Facts about one update *)

(** The body of the [for] loop, statement by statement. *)
Lemma channel_body_eq (k : nat) (m t : A) (ch : nat) (w : world A) :
  channel_body k m t ch w =
  match ai_device k ch with
  | Raise e => (Raise e, w)
  | Return v =>
      match data_vol_pre w !! ch, data_vol_incr w !! ch with
      | Some p, Some acc =>
          let acc' := add acc (compensated m t (sub v p)) in
          if is_zero m then
            (Raise ZeroDivisionError,
             World (data_vol_pre w) (<[ch:=acc']> (data_vol_incr w)) (stdout w))
          else (Return tt, updated ch v acc' m w)
      | _, _ => (Raise IndexError, w)
      end
  end.
Proof.
  unfold channel_body, a_in, lift, bind at 1.
  destruct (ai_device k ch) as [v|e]; [|reflexivity].
  unfold delta, get_pre, bind, ret, getitem.
  destruct (data_vol_pre w !! ch) as [p|] eqn:Hp; [|reflexivity].
  assert (Hlp : ch < length (data_vol_pre w)) by (eapply lookup_lt_Some; eauto).
  unfold compensated.
  destruct (data_vol_incr w !! ch) as [acc|] eqn:Hi.
  - assert (Hli : ch < length (data_vol_incr w)) by (eapply lookup_lt_Some; eauto).
    assert (Hstep : forall x,
      incr_add ch x w =
      (Return tt, World (data_vol_pre w) (<[ch:=add acc x]> (data_vol_incr w)) (stdout w))).
    { intros x. unfold incr_add, bind, get_incr, set_incr, getitem, setitem.
      rewrite Hi. simpl. destruct (decide (ch < length (data_vol_incr w))); [reflexivity|lia]. }
    assert (Hrest : forall x,
      (let w1 := World (data_vol_pre w) (<[ch:=add acc x]> (data_vol_incr w)) (stdout w) in
       (acc0 <- get_incr ch ;;
        q <- lift (truediv acc0 m) ;;
        set_pre ch v ;;; print (data_line ch (mul (mul q lit_2) math_pi))) w1 =
       if is_zero m then (Raise ZeroDivisionError, w1)
       else (Return tt, updated ch v (add acc x) m w))).
    { intros x w1. unfold bind, get_incr, getitem, lift, truediv. subst w1. simpl.
      rewrite list_lookup_insert_eq by assumption.
      destruct (is_zero m); [reflexivity|].
      unfold set_pre, setitem. simpl.
      destruct (decide (ch < length (data_vol_pre w))); [reflexivity|lia]. }
    destruct (gt (sub v p) t); rewrite Hp; simpl;
      [|destruct (lt (sub v p) (mul lit_minus_1_0 t)); rewrite ?Hp; simpl];
      rewrite Hstep; apply Hrest.
  - destruct (gt (sub v p) t); rewrite Hp; simpl;
      [|destruct (lt (sub v p) (mul lit_minus_1_0 t)); rewrite ?Hp; simpl];
      unfold incr_add, bind, get_incr, getitem; rewrite Hi; reflexivity.
Qed.

(** ** One sweep over the channels *)

Lemma updated_pre_ne (c ch : nat) (v a m : A) (w : world A) :
  c <> ch -> data_vol_pre (updated ch v a m w) !! c = data_vol_pre w !! c.
Proof. intros Hne. simpl. apply list_lookup_insert_ne. congruence. Qed.

Lemma updated_incr_ne (c ch : nat) (v a m : A) (w : world A) :
  c <> ch -> data_vol_incr (updated ch v a m w) !! c = data_vol_incr w !! c.
Proof. intros Hne. simpl. apply list_lookup_insert_ne. congruence. Qed.

(** A sweep whose reads all succeed and whose reference voltage is not
    zero returns: every channel swept has its new sample as previous
    voltage and its accumulator raised by the compensated difference, the
    other channels are as before, and one line per channel swept has been
    printed, in the order of the sweep. *)
Lemma sweep_ok (k : nat) (m t : A) (volt : nat -> A) :
  is_zero m = false ->
  forall (xs : list nat) (w : world A),
    NoDup xs ->
    (forall c, c ∈ xs ->
       c < length (data_vol_pre w) /\ c < length (data_vol_incr w)) ->
    (forall c, c ∈ xs -> ai_device k c = Return (volt c)) ->
    exists w',
      for_in xs (channel_body k m t) w = (Return tt, w')
      /\ length (data_vol_pre w') = length (data_vol_pre w)
      /\ length (data_vol_incr w') = length (data_vol_incr w)
      /\ (forall c p a, c ∈ xs ->
            data_vol_pre w !! c = Some p -> data_vol_incr w !! c = Some a ->
            data_vol_pre w' !! c = Some (volt c)
            /\ data_vol_incr w' !! c
               = Some (add a (compensated m t (sub (volt c) p))))
      /\ (forall c, c ∉ xs ->
            data_vol_pre w' !! c = data_vol_pre w !! c
            /\ data_vol_incr w' !! c = data_vol_incr w !! c)
      /\ stdout w' = (stdout w ++ map (report w' m) xs)%list.
Proof.
  intros Hm xs. induction xs as [|ch xs IH]; intros w Hnd Hlen Hdev.
  - exists w. simpl. rewrite app_nil_r.
    split; [reflexivity|]. split; [reflexivity|]. split; [reflexivity|].
    split; [|split; [intros; split; reflexivity|reflexivity]].
    intros c p a Hc. inversion Hc.
  - apply NoDup_cons in Hnd. destruct Hnd as [Hnotin Hnd].
    destruct (Hlen ch) as [Hlp Hli]; [left|].
    destruct (lookup_lt_is_Some_2 _ _ Hlp) as [p0 Hp0].
    destruct (lookup_lt_is_Some_2 _ _ Hli) as [a0 Ha0].
    set (a1 := add a0 (compensated m t (sub (volt ch) p0))).
    assert (Hbody : channel_body k m t ch w = (Return tt, updated ch (volt ch) a1 m w)).
    { rewrite channel_body_eq, (Hdev ch) by left. rewrite Hp0, Ha0. simpl.
      rewrite Hm. reflexivity. }
    destruct (IH (updated ch (volt ch) a1 m w)) as (w' & Hrun & Hl1 & Hl2 & Hin & Hout & Hstd).
    + exact Hnd.
    + intros c Hc. simpl. rewrite !length_insert. apply Hlen. now right.
    + intros c Hc. apply Hdev. now right.
    + destruct (Hout ch Hnotin) as [Hpch Hich].
      simpl in Hpch, Hich.
      rewrite list_lookup_insert_eq in Hpch by assumption.
      rewrite list_lookup_insert_eq in Hich by assumption.
      exists w'. split; [|split; [|split; [|split; [|split]]]].
      * cbn [for_in]. unfold bind. rewrite Hbody. exact Hrun.
      * rewrite Hl1. simpl. apply length_insert.
      * rewrite Hl2. simpl. apply length_insert.
      * intros c p a Hc Hp Ha. apply elem_of_cons in Hc. destruct Hc as [->|Hc].
        -- rewrite Hp0 in Hp. rewrite Ha0 in Ha. inversion Hp; inversion Ha; subst.
           split; assumption.
        -- assert (c <> ch) by (intros ->; contradiction).
           apply Hin; [assumption| |].
           ++ rewrite updated_pre_ne by assumption. exact Hp.
           ++ rewrite updated_incr_ne by assumption. exact Ha.
      * intros c Hc. apply not_elem_of_cons in Hc. destruct Hc as [Hne Hc].
        destruct (Hout c Hc) as [Hp Hi].
        rewrite Hp, Hi, updated_pre_ne, updated_incr_ne by assumption. now split.
      * rewrite Hstd. simpl. rewrite <- app_assoc. simpl.
        unfold report at 2. rewrite Hich. reflexivity.
Qed.

(** ** The channels of a run *)

Lemma high_channel_le : (high_channel <= 7)%Z.
Proof. unfold high_channel. destruct (Z.geb_spec 7 number_of_channels); lia. Qed.

Lemma elem_of_swept (c : nat) :
  c ∈ swept <-> (1 <= Z.of_nat c <= high_channel)%Z.
Proof.
  unfold swept, range, low_channel. rewrite elem_of_seq.
  change (Z.to_nat (0 + 1)) with 1. lia.
Qed.

Lemma elem_of_range_0 (c : nat) :
  c ∈ range low_channel (high_channel + 1) <-> (Z.of_nat c <= high_channel)%Z.
Proof.
  unfold range, low_channel. rewrite elem_of_seq.
  change (Z.to_nat 0) with 0. lia.
Qed.

Lemma swept_lt_8 (c : nat) : c ∈ swept -> 1 <= c < 8.
Proof. rewrite elem_of_swept. pose proof high_channel_le. lia. Qed.

Lemma NoDup_swept : NoDup swept.
Proof. apply NoDup_seq. Qed.

Lemma length_swept : length swept = Z.to_nat high_channel.
Proof.
  unfold swept, range, low_channel. rewrite length_seq. f_equal. lia.
Qed.

(** ** What an update leaves alone *)

(** Whatever the device does and however the update ends, it touches the
    entries of its own channel only and prints at most its own line. *)
Lemma channel_body_frame (k : nat) (m t : A) (ch : nat) (w : world A) :
  let w' := snd (channel_body k m t ch w) in
  length (data_vol_pre w') = length (data_vol_pre w)
  /\ length (data_vol_incr w') = length (data_vol_incr w)
  /\ (forall c, c <> ch ->
        data_vol_pre w' !! c = data_vol_pre w !! c
        /\ data_vol_incr w' !! c = data_vol_incr w !! c)
  /\ (stdout w' = stdout w
      \/ exists x, stdout w' = (stdout w ++ [line (data_line ch x)])%list).
Proof.
  rewrite channel_body_eq.
  destruct (ai_device k ch) as [v|e]; [|simpl; auto 6].
  destruct (data_vol_pre w !! ch) as [p|]; [|simpl; auto 6].
  destruct (data_vol_incr w !! ch) as [a|]; [|simpl; auto 6].
  cbv zeta. destruct (is_zero m); simpl; rewrite ?length_insert.
  - split; [reflexivity|]. split; [reflexivity|]. split; [|now left].
    intros c Hne. split; [reflexivity|]. apply list_lookup_insert_ne. congruence.
  - split; [reflexivity|]. split; [reflexivity|]. split; [|right; eauto].
    intros c Hne. split; apply list_lookup_insert_ne; congruence.
Qed.

(** The same for a whole sweep: channels outside it are untouched and
    every line printed is the data line of a channel inside it. *)
Lemma sweep_frame (k : nat) (m t : A) (xs : list nat) :
  forall w : world A,
    let w' := snd (for_in xs (channel_body k m t) w) in
    length (data_vol_pre w') = length (data_vol_pre w)
    /\ length (data_vol_incr w') = length (data_vol_incr w)
    /\ (forall c, c ∉ xs ->
          data_vol_pre w' !! c = data_vol_pre w !! c
          /\ data_vol_incr w' !! c = data_vol_incr w !! c)
    /\ exists lines,
         stdout w' = (stdout w ++ lines)%list
         /\ Forall (fun s => exists c x, c ∈ xs /\ s = line (data_line c x)) lines.
Proof.
  induction xs as [|ch xs IH]; intros w.
  - simpl. split; [reflexivity|]. split; [reflexivity|]. split; [auto|].
    exists []. rewrite app_nil_r. auto.
  - cbn [for_in]. unfold bind.
    pose proof (channel_body_frame k m t ch w) as Hb.
    destruct (channel_body k m t ch w) as [[[]|e] w1]; cbn [snd] in Hb.
    + specialize (IH w1). cbv zeta in IH.
      destruct (for_in xs (channel_body k m t) w1) as [o w2]. cbn [snd] in *.
      destruct Hb as (Hl1 & Hl2 & Hfr & Hout).
      destruct IH as (Hl1' & Hl2' & Hfr' & lines & Hstd & Hall).
      split; [congruence|]. split; [congruence|]. split.
      * intros c Hc. apply not_elem_of_cons in Hc. destruct Hc as [Hne Hc].
        destruct (Hfr' c Hc) as [-> ->]. apply Hfr. exact Hne.
      * assert (Hall' : Forall (fun s => exists c x, c ∈ ch :: xs /\ s = line (data_line c x)) lines).
        { eapply Forall_impl; [exact Hall|]. intros s (c & x & Hc & ->).
          exists c, x. split; [now right|reflexivity]. }
        destruct Hout as [Hs|[x Hs]].
        -- exists lines. rewrite Hstd, Hs. auto.
        -- exists ((line (data_line ch x)) :: lines). rewrite Hstd, Hs, <- app_assoc.
           split; [reflexivity|]. constructor; [|exact Hall'].
           exists ch, x. split; [now left|reflexivity].
    + cbn [snd]. destruct Hb as (Hl1 & Hl2 & Hfr & Hout).
      split; [assumption|]. split; [assumption|]. split.
      * intros c Hc. apply not_elem_of_cons in Hc. apply Hfr. tauto.
      * destruct Hout as [Hs|[x Hs]].
        -- exists []. rewrite app_nil_r. auto.
        -- exists [line (data_line ch x)]. split; [assumption|].
           constructor; [|constructor]. exists ch, x. split; [now left|reflexivity].
Qed.

(** ** One turn of the loop *)

Lemma iteration_eq (k : nat) (w : world A) :
  iteration k w =
  match ai_device k 0 with
  | Raise e => (Raise e, with_banner w)
  | Return m =>
      for_in swept (channel_body k m (mul m tolerance_ratio)) (with_banner w)
  end.
Proof.
  unfold iteration, bind, reset_cursor, print, write, a_in, lift, with_banner, banner.
  simpl. rewrite <- !app_assoc. simpl. destruct (ai_device k 0); reflexivity.
Qed.

(** A turn whose reads succeed and whose reference voltage is not zero. *)
Lemma iteration_ok (k : nat) (m : A) (volt : nat -> A) (w : world A) :
  well_formed w ->
  ai_device k 0 = Return m ->
  is_zero m = false ->
  (forall c, c ∈ swept -> ai_device k c = Return (volt c)) ->
  exists w',
    iteration k w = (Return tt, w')
    /\ well_formed w'
    /\ (forall c p a, c ∈ swept ->
          data_vol_pre w !! c = Some p -> data_vol_incr w !! c = Some a ->
          data_vol_pre w' !! c = Some (volt c)
          /\ data_vol_incr w' !! c
             = Some (add a (compensated m (mul m tolerance_ratio) (sub (volt c) p))))
    /\ (forall c, c ∉ swept ->
          data_vol_pre w' !! c = data_vol_pre w !! c
          /\ data_vol_incr w' !! c = data_vol_incr w !! c)
    /\ stdout w' = (stdout w ++ banner ++ map (report w' m) swept)%list.
Proof.
  intros [Hl1 Hl2] Hm Hz Hdev.
  destruct (sweep_ok k m (mul m tolerance_ratio) volt Hz swept (with_banner w))
    as (w' & Hrun & Hl1' & Hl2' & Hin & Hout & Hstd).
  - apply NoDup_swept.
  - intros c Hc. apply swept_lt_8 in Hc. simpl. lia.
  - exact Hdev.
  - exists w'. rewrite iteration_eq, Hm. split; [exact Hrun|].
    split; [split; simpl in *; congruence|].
    split; [exact Hin|]. split; [exact Hout|].
    rewrite Hstd. simpl. rewrite <- app_assoc. reflexivity.
Qed.

(** A turn, whatever the device does and however the turn ends. *)
Lemma iteration_frame (k : nat) (w : world A) :
  let w' := snd (iteration k w) in
  length (data_vol_pre w') = length (data_vol_pre w)
  /\ length (data_vol_incr w') = length (data_vol_incr w)
  /\ (forall c, c ∉ swept ->
        data_vol_pre w' !! c = data_vol_pre w !! c
        /\ data_vol_incr w' !! c = data_vol_incr w !! c)
  /\ exists lines,
       stdout w' = (stdout w ++ banner ++ lines)%list
       /\ Forall (fun s => exists c x, c ∈ swept /\ s = line (data_line c x)) lines.
Proof.
  rewrite iteration_eq. destruct (ai_device k 0) as [m|e].
  - pose proof (sweep_frame k m (mul m tolerance_ratio) swept (with_banner w)) as Hf.
    cbv zeta in *. destruct Hf as (Hl1 & Hl2 & Hfr & lines & Hstd & Hall).
    split; [exact Hl1|]. split; [exact Hl2|]. split; [exact Hfr|].
    exists lines. rewrite Hstd. simpl. rewrite <- app_assoc. auto.
  - cbn [snd with_banner data_vol_pre data_vol_incr stdout].
    split; [reflexivity|]. split; [reflexivity|]. split; [auto|].
    exists []. rewrite app_nil_r. auto.
Qed.

(** A turn whose reference voltage is zero stops at the division of the
    first channel swept: the accumulator of that channel has been raised,
    its previous voltage has not been replaced, nothing has been printed. *)
Lemma iteration_zero (k : nat) (m v : A) (w : world A) :
  well_formed w ->
  (1 <= high_channel)%Z ->
  ai_device k 0 = Return m ->
  is_zero m = true ->
  ai_device k 1 = Return v ->
  exists w',
    iteration k w = (Raise ZeroDivisionError, w')
    /\ data_vol_pre w' = data_vol_pre w
    /\ stdout w' = (stdout w ++ banner)%list.
Proof.
  intros [Hl1 Hl2] Hh Hm Hz Hv.
  rewrite iteration_eq, Hm.
  assert (Hs : exists xs, swept = 1 :: xs).
  { unfold swept, range, low_channel.
    change (Z.to_nat (0 + 1)) with 1.
    destruct (Z.to_nat (high_channel + 1 - (0 + 1))) eqn:E; [lia|].
    simpl. eauto. }
  destruct Hs as [xs ->]. cbn [for_in]. unfold bind.
  rewrite channel_body_eq, Hv. simpl.
  destruct (lookup_lt_is_Some_2 (data_vol_pre w) 1) as [p ->]; [lia|].
  destruct (lookup_lt_is_Some_2 (data_vol_incr w) 1) as [a ->]; [lia|].
  rewrite Hz. eexists. split; [reflexivity|]. simpl. auto.
Qed.

(** ** The lines of a turn, however it ends *)

(** A sweep, however it ends: a line has been printed for each channel
    before the one that raised, in the order of the sweep. *)
Lemma sweep_lines (k : nat) (m t : A) :
  forall (xs : list nat) (w : world A),
    NoDup xs ->
    (forall c, c ∈ xs ->
       c < length (data_vol_pre w) /\ c < length (data_vol_incr w)) ->
    let r := for_in xs (channel_body k m t) w in
    exists j,
      j <= length xs
      /\ stdout (snd r) = (stdout w ++ map (report (snd r) m) (take j xs))%list
      /\ (fst r = Return tt -> j = length xs)
      /\ (forall e, fst r = Raise e -> j < length xs).
Proof.
  induction xs as [|ch xs IH]; intros w Hnd Hlen.
  - exists 0. simpl. rewrite app_nil_r. repeat split; auto. intros e; discriminate.
  - apply NoDup_cons in Hnd. destruct Hnd as [Hnotin Hnd].
    destruct (Hlen ch) as [Hlp Hli]; [left|].
    destruct (lookup_lt_is_Some_2 _ _ Hlp) as [p0 Hp0].
    destruct (lookup_lt_is_Some_2 _ _ Hli) as [a0 Ha0].
    cbn [for_in]. unfold bind. rewrite channel_body_eq.
    destruct (ai_device k ch) as [v|e].
    2:{ exists 0. simpl. rewrite app_nil_r. repeat split; try lia; discriminate. }
    rewrite Hp0, Ha0. cbv zeta.
    destruct (is_zero m).
    { exists 0. simpl. rewrite app_nil_r. repeat split; try lia; discriminate. }
    set (a1 := add a0 (compensated m t (sub v p0))).
    set (w1 := updated ch v a1 m w).
    destruct (IH w1 Hnd) as (j & Hj & Hout & Hret & Hraise).
    { intros c Hc. unfold w1. simpl. rewrite !length_insert. apply Hlen. now right. }
    pose proof (sweep_frame k m t xs w1) as Hf. cbv zeta in Hf.
    destruct Hf as (_ & _ & Hfr & _).
    destruct (Hfr ch Hnotin) as [_ Hich].
    unfold w1 in Hich at 2. simpl in Hich.
    rewrite list_lookup_insert_eq in Hich by assumption.
    exists (S j). split; [simpl; lia|]. split; [|split].
    + rewrite Hout. unfold w1 at 1. simpl. rewrite <- app_assoc. simpl.
      unfold report at 2. rewrite Hich. reflexivity.
    + intros Hr. simpl. f_equal. apply Hret. exact Hr.
    + intros e Hr. simpl. specialize (Hraise e Hr). lia.
Qed.

Lemma swept_seq : swept = seq 1 (Z.to_nat high_channel).
Proof.
  unfold swept, range, low_channel. f_equal. lia.
Qed.

(** A turn, however it ends. *)
Lemma iteration_lines (k : nat) (w : world A) :
  well_formed w ->
  let r := iteration k w in
  match ai_device k 0 with
  | Raise e => r = (Raise e, with_banner w)
  | Return m =>
      exists j,
        j <= Z.to_nat high_channel
        /\ stdout (snd r)
           = (stdout w ++ banner ++ map (report (snd r) m) (seq 1 j))%list
        /\ (fst r = Return tt -> j = Z.to_nat high_channel)
        /\ (forall e, fst r = Raise e -> j < Z.to_nat high_channel)
        /\ (is_zero m = false ->
            (forall c, 1 <= c <= Z.to_nat high_channel ->
               exists v, ai_device k c = Return v) ->
            fst r = Return tt)
  end.
Proof.
  intros Hwf. cbv zeta. rewrite iteration_eq.
  destruct (ai_device k 0) as [m|e] eqn:Hm; [|reflexivity].
  destruct (sweep_lines k m (mul m tolerance_ratio) swept (with_banner w))
    as (j & Hj & Hout & Hret & Hraise).
  { apply NoDup_swept. }
  { intros c Hc. apply swept_lt_8 in Hc. destruct Hwf as [H1 H2]. simpl. lia. }
  cbv zeta in *. rewrite length_swept in *.
  exists j. split; [exact Hj|]. split; [|split; [exact Hret|split; [exact Hraise|]]].
  - rewrite Hout. unfold with_banner; cbn [stdout]. rewrite <- app_assoc.
    rewrite swept_seq, take_seq, Nat.min_l by lia. reflexivity.
  - intros Hz Hdev.
    destruct (iteration_ok k m
                (fun c => match ai_device k c with Return v => v | Raise _ => m end)
                w Hwf Hm Hz) as (w' & Hrun & _).
    { intros c Hc. apply elem_of_swept in Hc.
      destruct (Hdev c) as [v Hv]; [lia|]. rewrite Hv. reflexivity. }
    rewrite iteration_eq, Hm in Hrun. rewrite Hrun. reflexivity.
Qed.

(** ** The initial read *)

(** The initial read leaves the accumulators and the terminal alone. *)
Lemma initial_frame (xs : list nat) :
  forall w : world A,
    let w' := snd (for_in xs initial_read w) in
    data_vol_incr w' = data_vol_incr w
    /\ stdout w' = stdout w
    /\ length (data_vol_pre w') = length (data_vol_pre w).
Proof.
  induction xs as [|ch xs IH]; intros w; [simpl; auto|].
  cbn [for_in]. unfold bind.
  assert (Hb : let w1 := snd (initial_read ch w) in
               data_vol_incr w1 = data_vol_incr w /\ stdout w1 = stdout w
               /\ length (data_vol_pre w1) = length (data_vol_pre w)).
  { unfold initial_read, bind, a_in, lift, set_pre, setitem.
    destruct (ai_device 0 ch) as [v|e]; [|simpl; auto].
    destruct (decide (ch < length (data_vol_pre w))); simpl; [|auto].
    rewrite length_insert. auto. }
  destruct (initial_read ch w) as [[[]|e] w1]; cbn [snd] in *; [|exact Hb].
  specialize (IH w1). cbv zeta in IH.
  destruct IH as (E1 & E2 & E3). destruct Hb as (F1 & F2 & F3).
  split; [congruence|]. split; congruence.
Qed.

Lemma initial_ok (volt : nat -> A) (xs : list nat) :
  forall w : world A,
    (forall c, c ∈ xs -> c < length (data_vol_pre w)) ->
    (forall c, c ∈ xs -> ai_device 0 c = Return (volt c)) ->
    exists w',
      for_in xs initial_read w = (Return tt, w')
      /\ (forall c, c ∈ xs -> data_vol_pre w' !! c = Some (volt c))
      /\ (forall c, c ∉ xs -> data_vol_pre w' !! c = data_vol_pre w !! c).
Proof.
  induction xs as [|ch xs IH]; intros w Hlen Hdev.
  - exists w. split; [reflexivity|]. split; [|auto].
    intros c Hc. inversion Hc.
  - assert (Hch : ch < length (data_vol_pre w)) by (apply Hlen; left).
    set (w1 := World (<[ch:=volt ch]> (data_vol_pre w)) (data_vol_incr w) (stdout w)).
    assert (Hb : initial_read ch w = (Return tt, w1)).
    { unfold initial_read, bind, a_in, lift, set_pre, setitem.
      rewrite (Hdev ch) by left.
      destruct (decide (ch < length (data_vol_pre w))); [reflexivity|lia]. }
    destruct (IH w1) as (w' & Hrun & Hin & Hout).
    + intros c Hc. simpl. rewrite length_insert. apply Hlen. now right.
    + intros c Hc. apply Hdev. now right.
    + exists w'. split; [cbn [for_in]; unfold bind; rewrite Hb; exact Hrun|].
      split.
      * intros c Hc. destruct (decide (c ∈ xs)) as [Hc'|Hc']; [now apply Hin|].
        apply elem_of_cons in Hc. destruct Hc as [->|Hc]; [|contradiction].
        rewrite (Hout ch Hc'). simpl. now apply list_lookup_insert_eq.
      * intros c Hc. apply not_elem_of_cons in Hc. destruct Hc as [Hne Hc].
        rewrite (Hout c Hc). simpl. apply list_lookup_insert_ne. congruence.
Qed.

(** ** A run of the loop on voltages *)

Lemma total_S (volt : nat -> nat -> A) (c n : nat) :
  total volt c (S n) = add (total volt c n) (increment volt c (S n)).
Proof.
  unfold total. rewrite seq_S, map_app, fold_left_app. reflexivity.
Qed.

Lemma fresh_lookup (c : nat) :
  c < 8 -> data_vol_incr fresh !! c = Some lit_0_0.
Proof. intros Hc. unfold fresh. cbn [data_vol_incr]. apply lookup_replicate_2. exact Hc. Qed.

Lemma initialise_ok (volt : nat -> nat -> A) :
  (forall c, c <= 7 -> ai_device 0 c = Return (volt 0 c)) ->
  exists w,
    initialise fresh = (Return tt, w) /\ tracks volt 0 w /\ stdout w = [].
Proof.
  intros Hdev. unfold initialise.
  destruct (initial_ok (volt 0) (range low_channel (high_channel + 1)) fresh)
    as (w & Hrun & Hin & Hout).
  - intros c Hc. apply elem_of_range_0 in Hc. pose proof high_channel_le.
    unfold fresh. cbn [data_vol_pre]. rewrite length_replicate. lia.
  - intros c Hc. apply elem_of_range_0 in Hc. pose proof high_channel_le.
    apply Hdev. lia.
  - pose proof (initial_frame (range low_channel (high_channel + 1)) fresh) as Hf.
    cbv zeta in Hf.
    rewrite Hrun in *. cbn [snd] in Hf. destruct Hf as (Hi & Hs & Hl).
    exists w. split; [reflexivity|]. split; [|exact Hs].
    split; [split|split].
    + rewrite Hl. unfold fresh. cbn [data_vol_pre]. apply length_replicate.
    + rewrite Hi. unfold fresh. cbn [data_vol_incr]. apply length_replicate.
    + intros c Hc. split.
      * apply Hin. apply elem_of_range_0. apply elem_of_swept in Hc. lia.
      * rewrite Hi. apply fresh_lookup. apply swept_lt_8 in Hc. lia.
    + intros c Hc Hlt. rewrite Hi. apply fresh_lookup. exact Hlt.
Qed.

Lemma loop_ok (volt : nat -> nat -> A) :
  forall (fuel n : nat) (w : world A),
    tracks volt n w ->
    (forall k c, n < k <= n + fuel -> c <= 7 -> ai_device k c = Return (volt k c)) ->
    (forall k, n < k <= n + fuel -> is_zero (volt k 0) = false) ->
    exists w',
      while_true fuel (S n) w = (Looping, w')
      /\ tracks volt (n + fuel) w'
      /\ (1 <= fuel ->
          exists out,
            stdout w' = (out ++ banner ++ map (report w' (volt (n + fuel) 0)) swept)%list).
Proof.
  induction fuel as [|fuel IH]; intros n w Htr Hdev Hz.
  - exists w. rewrite Nat.add_0_r. split; [reflexivity|]. split; [exact Htr|]. lia.
  - destruct Htr as (Hwf & Hsw & Hrest).
    destruct (iteration_ok (S n) (volt (S n) 0) (volt (S n)) w Hwf)
      as (w1 & Hrun & Hwf1 & Hin & Hout & Hstd).
    + apply Hdev; lia.
    + apply Hz; lia.
    + intros c Hc. apply swept_lt_8 in Hc. apply Hdev; lia.
    + assert (Htr1 : tracks volt (S n) w1).
      { split; [exact Hwf1|]. split.
        - intros c Hc. destruct (Hsw c Hc) as [Hp Ha].
          destruct (Hin c _ _ Hc Hp Ha) as [Hp1 Ha1].
          split; [exact Hp1|]. rewrite Ha1, total_S. unfold increment.
          replace (S n - 1) with n by lia. reflexivity.
        - intros c Hc Hlt. destruct (Hout c Hc) as [_ ->]. now apply Hrest. }
      destruct fuel as [|fuel'].
      * exists w1. cbn [while_true]. rewrite Hrun.
        replace (n + 1) with (S n) by lia.
        split; [reflexivity|]. split; [exact Htr1|].
        intros _. exists (stdout w). exact Hstd.
      * destruct (IH (S n) w1 Htr1) as (w' & Hloop & Htr' & Hlast).
        -- intros k c Hk Hc. apply Hdev; lia.
        -- intros k Hk. apply Hz; lia.
        -- exists w'. cbn [while_true]. rewrite Hrun.
           replace (n + S (S fuel')) with (S n + S fuel') by lia.
           split; [exact Hloop|]. split; [exact Htr'|].
           intros _. apply Hlast. lia.
Qed.

(** ** The loop and its handlers *)

Lemma while_true_app (n f k : nat) (w w' : world A) :
  while_true n k w = (Looping, w') ->
  while_true (n + f) k w = while_true f (k + n) w'.
Proof.
  revert k w. induction n as [|n IH]; intros k w Hrun.
  - simpl in Hrun. inversion Hrun; subst. rewrite Nat.add_0_r. reflexivity.
  - cbn [while_true Nat.add] in *.
    destruct (iteration k w) as [[[]|e] w1].
    + rewrite (IH _ _ Hrun). f_equal. lia.
    + destruct (loop_catches e); discriminate.
Qed.

Lemma data_line_0 (x : A) : names_channel_0 (line (data_line 0 x)) = true.
Proof. reflexivity. Qed.

Lemma data_line_swept (c : nat) (x : A) :
  c ∈ swept -> names_channel_0 (line (data_line c x)) = false.
Proof.
  intros Hc. apply swept_lt_8 in Hc.
  do 8 (destruct c as [|c]; [try lia; reflexivity|]). lia.
Qed.

Lemma banner_not_channel_0 :
  Forall (fun s => names_channel_0 s = false) banner.
Proof. repeat constructor. Qed.

Lemma zero_not_swept : 0 ∉ swept.
Proof. rewrite elem_of_swept. lia. Qed.

(** Channel 0 through any number of turns, whatever the device does. *)
Lemma while_true_channel_0 :
  forall (fuel k : nat) (w : world A),
    let w' := snd (while_true fuel k w) in
    data_vol_pre w' !! 0 = data_vol_pre w !! 0
    /\ data_vol_incr w' !! 0 = data_vol_incr w !! 0
    /\ (Forall (fun s => names_channel_0 s = false) (stdout w) ->
        Forall (fun s => names_channel_0 s = false) (stdout w')).
Proof.
  induction fuel as [|fuel IH]; intros k w; [simpl; auto|].
  cbn [while_true].
  pose proof (iteration_frame k w) as Hf. cbv zeta in Hf.
  destruct Hf as (_ & _ & Hfr & lines & Hstd & Hall).
  destruct (Hfr 0 zero_not_swept) as [Hp Hi].
  assert (Hout : Forall (fun s => names_channel_0 s = false) (stdout w) ->
                 Forall (fun s => names_channel_0 s = false) (stdout (snd (iteration k w)))).
  { intros Hw. rewrite Hstd. apply Forall_app. split; [exact Hw|].
    apply Forall_app. split; [exact banner_not_channel_0|].
    eapply Forall_impl; [exact Hall|].
    intros s (c & x & Hc & ->). now apply data_line_swept. }
  destruct (iteration k w) as [[[]|e] w1]; cbn [snd] in *.
  - specialize (IH (S k) w1). cbv zeta in IH. destruct IH as (Hp' & Hi' & Hout').
    split; [congruence|]. split; [congruence|]. auto.
  - destruct (loop_catches e); cbn [snd]; auto.
Qed.

(** A run of [n] turns on voltages, from the start of [main]. *)
Lemma main_ok (volt : nat -> nat -> A) (n : nat) :
  (forall k c, k <= n -> c <= 7 -> ai_device k c = Return (volt k c)) ->
  (forall k, 1 <= k <= n -> is_zero (volt k 0) = false) ->
  exists w,
    main n = (Polling, w)
    /\ tracks volt n w
    /\ (1 <= n ->
        exists out,
          stdout w = (out ++ banner ++ map (report w (volt n 0)) swept)%list).
Proof.
  intros Hdev Hz.
  destruct (initialise_ok volt) as (w0 & Hinit & Htr0 & _).
  { intros c Hc. apply Hdev; lia. }
  destruct (loop_ok volt n 0 w0 Htr0) as (w & Hloop & Htr & Hout).
  { intros k c Hk Hc. apply Hdev; lia. }
  { intros k Hk. apply Hz. lia. }
  exists w. unfold main. rewrite Hinit, Hloop. auto.
Qed.

(** The three amounts an update can add. *)
Lemma compensated_cases (m t d : A) :
  compensated m t d = sub d m
  \/ compensated m t d = add d m
  \/ compensated m t d = d.
Proof.
  unfold compensated.
  destruct (gt d t); [|destruct (lt d (mul lit_minus_1_0 t))]; auto.
Qed.

(** Turns in which neither comparison of lines 129-131 holds add the
    plain differences. *)
Lemma total_no_wrap (volt : nat -> nat -> A) (c n : nat) :
  (forall i, 1 <= i <= n ->
     let t := mul (volt i 0) tolerance_ratio in
     let d := sub (volt i c) (volt (i - 1) c) in
     gt d t = false /\ lt d (mul lit_minus_1_0 t) = false) ->
  total volt c n
  = fold_left add (map (fun i => sub (volt i c) (volt (i - 1) c)) (seq 1 n)) lit_0_0.
Proof.
  intros Hsmall. unfold total. f_equal. apply map_ext_in.
  intros i Hi. apply in_seq in Hi.
  destruct (Hsmall i) as [Hgt Hlt]; [lia|].
  unfold increment, compensated. cbv zeta in Hgt, Hlt. rewrite Hgt, Hlt. reflexivity.
Qed.

(** ** The update of one channel *)


(** C7. Once a sample has been processed for a channel, the previous
    voltage of that channel is the sample, whichever of the three branches
    was taken; the update is processed whenever the reference voltage is
    not zero; and the previous voltage and the accumulator of every other
    channel are what they were, however the update ended. *)
Theorem update_frame
    (k : nat) (m t : A) (ch : nat) (w : world A) (v : A) :
  ai_device k ch = Return v ->
  ch < length (data_vol_pre w) ->
  ch < length (data_vol_incr w) ->
  let r := channel_body k m t ch w in
  (fst r = Return tt -> data_vol_pre (snd r) !! ch = Some v)
  /\ (is_zero m = false -> fst r = Return tt)
  /\ (forall c, c <> ch ->
        data_vol_pre (snd r) !! c = data_vol_pre w !! c
        /\ data_vol_incr (snd r) !! c = data_vol_incr w !! c).
Proof.
  intros Hv Hlp Hli r.
  pose proof (channel_body_frame k m t ch w) as Hf. cbv zeta in Hf.
  destruct Hf as (_ & _ & Hfr & _).
  split; [|split; [|exact Hfr]]; subst r; rewrite channel_body_eq, Hv;
    destruct (lookup_lt_is_Some_2 _ _ Hlp) as [p ->];
    destruct (lookup_lt_is_Some_2 _ _ Hli) as [a ->]; cbv zeta.
  - destruct (is_zero m); simpl; [discriminate|].
    intros _. now apply list_lookup_insert_eq.
  - intros ->. reflexivity.
Qed.

(** ** The accumulators over a run *)

(** C6. The accumulator of a channel is created as [0.0] and from then on
    only added to: after [n] turns of the loop it is the running total,
    from [0.0], of the compensated differences of the turns [1 .. n], in
    that order, for a channel the loop sweeps, and still [0.0] for any
    other channel. *)
Theorem accumulator_running_total (volt : nat -> nat -> A) (n : nat) :
  (forall k c, k <= n -> c <= 7 -> ai_device k c = Return (volt k c)) ->
  (forall k, 1 <= k <= n -> is_zero (volt k 0) = false) ->
  exists w,
    main n = (Polling, w)
    /\ data_vol_incr fresh = replicate 8 lit_0_0
    /\ (forall c, c ∈ swept ->
          data_vol_incr w !! c
          = Some (fold_left add (map (increment volt c) (seq 1 n)) lit_0_0))
    /\ (forall c, c ∉ swept -> c < 8 -> data_vol_incr w !! c = Some lit_0_0).
Proof.
  intros Hdev Hz.
  destruct (initialise_ok volt) as (w0 & Hinit & Htr0 & _).
  { intros c Hc. apply Hdev; lia. }
  destruct (loop_ok volt n 0 w0 Htr0) as (w & Hloop & (Hwf & Hsw & Hrest) & _).
  { intros k c Hk Hc. apply Hdev; lia. }
  { intros k Hk. apply Hz. lia. }
  exists w. unfold main. rewrite Hinit, Hloop.
  split; [reflexivity|]. split; [reflexivity|]. split; [|exact Hrest].
  intros c Hc. apply (Hsw c Hc).
Qed.

(** C9. Channel 0 is the reference only.  Whatever the device does and
    however long the loop runs, the accumulator of channel 0 is [0.0], its
    previous voltage is what the initial read left there, and nothing
    written to the terminal is a data line of channel 0. *)
Theorem channel_0_is_reference (fuel : nat) :
  let w := snd (main fuel) in
  data_vol_incr w !! 0 = Some lit_0_0
  /\ data_vol_pre w !! 0 = data_vol_pre (snd (initialise fresh)) !! 0
  /\ Forall (fun s => names_channel_0 s = false) (stdout w)
  /\ (forall x, line (data_line 0 x) ∉ stdout w).
Proof.
  assert (Hmain :
    let w := snd (main fuel) in
    data_vol_incr w !! 0 = Some lit_0_0
    /\ data_vol_pre w !! 0 = data_vol_pre (snd (initialise fresh)) !! 0
    /\ Forall (fun s => names_channel_0 s = false) (stdout w)).
  { unfold main.
    pose proof (initial_frame (range low_channel (high_channel + 1)) fresh) as Hf.
    cbv zeta in Hf. fold initialise in Hf. destruct Hf as (Hi & Hs & _).
    assert (Hh : forall e w0,
      data_vol_incr w0 !! 0 = Some lit_0_0 ->
      Forall (fun s => names_channel_0 s = false) (stdout w0) ->
      data_vol_incr (snd (handlers e w0)) !! 0 = Some lit_0_0
      /\ data_vol_pre (snd (handlers e w0)) !! 0 = data_vol_pre w0 !! 0
      /\ Forall (fun s => names_channel_0 s = false) (stdout (snd (handlers e w0)))).
    { intros e w0 H0 Hout. destruct e; simpl; auto.
      split; [exact H0|]. split; [reflexivity|].
      apply Forall_app. split; [exact Hout|]. repeat constructor. }
    destruct (initialise fresh) as [[[]|e] w0]; cbn [snd] in *.
    - pose proof (while_true_channel_0 fuel 1 w0) as Hw. cbv zeta in Hw.
      destruct Hw as (Hp' & Hi' & Hout').
      assert (H0 : data_vol_incr (snd (while_true fuel 1 w0)) !! 0 = Some lit_0_0).
      { rewrite Hi', Hi. apply fresh_lookup; lia. }
      assert (Hout : Forall (fun s => names_channel_0 s = false)
                       (stdout (snd (while_true fuel 1 w0)))).
      { apply Hout'. rewrite Hs. constructor. }
      destruct (while_true fuel 1 w0) as [[| |e] w1]; cbn [snd] in *; auto.
      destruct (Hh e w1 H0 Hout) as (? & ? & ?). split; [assumption|].
      split; [congruence|assumption].
    - apply Hh.
      + rewrite Hi. apply fresh_lookup; lia.
      + rewrite Hs. constructor. }
  cbv zeta in *. destruct Hmain as (H0 & Hp & Hout).
  split; [exact H0|]. split; [exact Hp|]. split; [exact Hout|].
  intros x Hin. rewrite Forall_forall in Hout. apply Hout in Hin.
  rewrite data_line_0 in Hin. discriminate.
Qed.

(** ** Exceptions in the loop *)

(** C5, as amended.  An exception that leaves a turn of the loop ends the
    loop silently, by [break], exactly when its class is [ValueError],
    [NameError] or [SyntaxError]; any other leaves the loop as it is, and
    neither [ZeroDivisionError] nor [TypeError] is taken by a handler of
    [main].  The division of line 135 raises [ZeroDivisionError] in the
    first turn whose reference voltage is zero: [main] is left by that
    exception. *)
Theorem loop_exceptions (volt : nat -> nat -> A) (n : nat) (m v : A) :
  (forall k c, k <= n -> c <= 7 -> ai_device k c = Return (volt k c)) ->
  (forall k, 1 <= k <= n -> is_zero (volt k 0) = false) ->
  (1 <= high_channel)%Z ->
  ai_device (S n) 0 = Return m ->
  is_zero m = true ->
  ai_device (S n) 1 = Return v ->
  (forall extra, fst (main (S n + extra)) = Uncaught ZeroDivisionError)
  /\ (forall fuel k w e w',
        iteration k w = (Raise e, w') ->
        while_true (S fuel) k w
        = (if loop_catches e then Broken else Raised e, w'))
  /\ (forall e,
        loop_catches e = true <-> e = ValueError \/ e = NameError \/ e = SyntaxError)
  /\ (forall w : world A,
        handlers ZeroDivisionError w = (Uncaught ZeroDivisionError, w)
        /\ handlers TypeError w = (Uncaught TypeError, w)).
Proof.
  intros Hdev Hz Hh Hm Hzero Hv.
  split; [|split; [|split; [|intros w; split; reflexivity]]].
  - intros extra.
    destruct (initialise_ok volt) as (w0 & Hinit & Htr0 & _).
    { intros c Hc. apply Hdev; lia. }
    destruct (loop_ok volt n 0 w0 Htr0) as (w & Hloop & (Hwf & _) & _).
    { intros k c Hk Hc. apply Hdev; lia. }
    { intros k Hk. apply Hz. lia. }
    destruct (iteration_zero (S n) m v w Hwf Hh Hm Hzero Hv) as (w' & Hit & _).
    unfold main. rewrite Hinit.
    replace (S n + extra) with (n + S extra) by lia.
    rewrite (while_true_app n (S extra) 1 w0 w Hloop).
    replace (1 + n) with (S n) by lia.
    cbn [while_true]. rewrite Hit. reflexivity.
  - intros fuel k w e w' Hit. cbn [while_true]. rewrite Hit.
    destruct (loop_catches e); reflexivity.
  - intros e. split.
    + destruct e; simpl; intros; try discriminate; auto.
    + intros [->|[->| ->]]; reflexivity.
Qed.

(** ** Where exceptions come from *)

Lemma channel_body_raises (k : nat) (m t : A) (ch : nat) (w w' : world A) (e : exn) :
  channel_body k m t ch w = (Raise e, w') ->
  ch < length (data_vol_pre w) ->
  ch < length (data_vol_incr w) ->
  e = ZeroDivisionError \/ ai_device k ch = Raise e.
Proof.
  intros Hrun Hlp Hli. rewrite channel_body_eq in Hrun.
  destruct (ai_device k ch) as [v|e0].
  - destruct (lookup_lt_is_Some_2 _ _ Hlp) as [p Hp].
    destruct (lookup_lt_is_Some_2 _ _ Hli) as [a Ha].
    rewrite Hp, Ha in Hrun. cbv zeta in Hrun.
    destruct (is_zero m); inversion Hrun. now left.
  - inversion Hrun. now right.
Qed.

Lemma sweep_raises (k : nat) (m t : A) (e : exn) (xs : list nat) :
  forall w w' : world A,
    for_in xs (channel_body k m t) w = (Raise e, w') ->
    (forall c, c ∈ xs ->
       c < length (data_vol_pre w) /\ c < length (data_vol_incr w)) ->
    e = ZeroDivisionError \/ exists c, ai_device k c = Raise e.
Proof.
  induction xs as [|ch xs IH]; intros w w' Hrun Hlen; [discriminate|].
  cbn [for_in] in Hrun. unfold bind in Hrun.
  destruct (Hlen ch) as [Hlp Hli]; [left|].
  pose proof (channel_body_frame k m t ch w) as Hf. cbv zeta in Hf.
  destruct Hf as (Hl1 & Hl2 & _).
  destruct (channel_body k m t ch w) as [[[]|e0] w1] eqn:Hb; cbn [snd] in *.
  - apply (IH w1 w' Hrun). intros c Hc. rewrite Hl1, Hl2. apply Hlen. now right.
  - inversion Hrun; subst.
    destruct (channel_body_raises k m t ch w w' e Hb Hlp Hli) as [->|Hd]; eauto.
Qed.

Lemma iteration_raises (k : nat) (w w' : world A) (e : exn) :
  iteration k w = (Raise e, w') ->
  well_formed w ->
  e = ZeroDivisionError \/ exists c, ai_device k c = Raise e.
Proof.
  intros Hrun [Hl1 Hl2]. rewrite iteration_eq in Hrun.
  destruct (ai_device k 0) as [m|e0] eqn:Hm.
  - apply (sweep_raises k m (mul m tolerance_ratio) e swept _ _ Hrun).
    intros c Hc. apply swept_lt_8 in Hc. simpl. lia.
  - inversion Hrun; subst. eauto.
Qed.

Lemma while_true_raises (e : exn) :
  forall (fuel k : nat) (w : world A),
    well_formed w ->
    fst (while_true fuel k w) = Raised e ->
    e = ZeroDivisionError \/ exists k' c, ai_device k' c = Raise e.
Proof.
  induction fuel as [|fuel IH]; intros k w Hwf Hrun; [discriminate|].
  cbn [while_true] in Hrun.
  pose proof (iteration_frame k w) as Hf. cbv zeta in Hf.
  destruct Hf as (Hl1 & Hl2 & _).
  destruct (iteration k w) as [[[]|e0] w1] eqn:Hit; cbn [snd] in *.
  - apply (IH (S k) w1); [|exact Hrun].
    destruct Hwf. split; congruence.
  - destruct (loop_catches e0); [discriminate|]. inversion Hrun; subst.
    destruct (iteration_raises k w w1 e Hit Hwf) as [->|[c Hc]]; eauto.
Qed.

Lemma initial_raises (e : exn) (xs : list nat) :
  forall w w' : world A,
    for_in xs initial_read w = (Raise e, w') ->
    (forall c, c ∈ xs -> c < length (data_vol_pre w)) ->
    exists c, c ∈ xs /\ ai_device 0 c = Raise e.
Proof.
  induction xs as [|ch xs IH]; intros w w' Hrun Hlen; [discriminate|].
  cbn [for_in] in Hrun. unfold bind at 1 in Hrun.
  assert (Hch : ch < length (data_vol_pre w)) by (apply Hlen; left).
  unfold initial_read at 1, bind, a_in, lift, set_pre, setitem in Hrun.
  destruct (ai_device 0 ch) as [v|e0] eqn:Hd.
  - destruct (decide (ch < length (data_vol_pre w))); [|lia].
    destruct (IH _ w' Hrun) as (c & Hc & Hraise).
    + intros c Hc. simpl. rewrite length_insert. apply Hlen. now right.
    + exists c. split; [now right|exact Hraise].
  - inversion Hrun; subst. exists ch. split; [left|exact Hd].
Qed.

Lemma handlers_uncaught (e0 e : exn) (w : world A) :
  fst (handlers e0 w) = Uncaught e -> e = e0.
Proof. destruct e0; simpl; intros Hh; inversion Hh; reflexivity. Qed.

(** X1.  The script raises nothing of its own but the division by a zero
    reference voltage: an exception that leaves [main] uncaught is a
    [ZeroDivisionError] or was raised by a read of the device.  The two
    lists are never indexed out of range. *)
Theorem uncaught_comes_from_device (fuel : nat) (e : exn) :
  fst (main fuel) = Uncaught e ->
  e = ZeroDivisionError \/ exists k c, ai_device k c = Raise e.
Proof.
  unfold main. intros Hrun.
  pose proof (initial_frame (range low_channel (high_channel + 1)) fresh) as Hf.
  cbv zeta in Hf. fold initialise in Hf. destruct Hf as (Hi & _ & Hl).
  destruct initialise as [[[]|e0] w0] eqn:Hinit; cbn [snd] in *.
  - assert (Hwf : well_formed w0).
    { split; [rewrite Hl|rewrite Hi]; unfold fresh; simpl; reflexivity. }
    destruct (while_true fuel 1 w0) as [[| |e1] w1] eqn:Hloop;
      try discriminate.
    apply handlers_uncaught in Hrun. subst e1.
    apply (while_true_raises e fuel 1 w0 Hwf). rewrite Hloop. reflexivity.
  - apply handlers_uncaught in Hrun. subst e0. right. exists 0.
    destruct (initial_raises e _ _ _ Hinit) as (c & _ & Hc); [|eauto].
    intros c Hc. apply elem_of_range_0 in Hc. pose proof high_channel_le.
    unfold fresh. cbn [data_vol_pre]. rewrite length_replicate. lia.
Qed.

(** ** A read that raises *)

(** X2.  When the read of the reference voltage raises in the turn after
    [n] completed ones, the run ends there, whatever time is left.  The
    three writes of lines 115-118 have been made and nothing else has
    changed.  [ValueError], [NameError] and [SyntaxError] end the loop by
    [break] and [main] returns; [KeyboardInterrupt] is passed over by
    line 143 and [main] returns; the message of a [RuntimeError] is
    printed after a new line and a blank, and [main] returns; an
    exception of any other class leaves [main]. *)
Theorem reference_read_raises (volt : nat -> nat -> A) (n : nat) (e : exn) :
  (forall k c, k <= n -> c <= 7 -> ai_device k c = Return (volt k c)) ->
  (forall k, 1 <= k <= n -> is_zero (volt k 0) = false) ->
  ai_device (S n) 0 = Raise e ->
  exists w,
    main n = (Polling, w)
    /\ forall extra,
         let written :=
           app (stdout w)
             [ String "027" "[1;1H";
               "Please enter CTRL + C to terminate the process"
                 ++ String "010" (String "010" "");
               ("Active DAQ device: " ++ dev_string ++ " (" ++ unique_id ++ ")"
                  ++ String "010" "") ++ String "010" "" ] in
         main (S n + extra)
         = match e with
           | ValueError | NameError | SyntaxError | KeyboardInterrupt =>
               (Returned, World (data_vol_pre w) (data_vol_incr w) written)
           | RuntimeError msg =>
               (Returned,
                World (data_vol_pre w) (data_vol_incr w)
                  (app written [String "010" (" " ++ msg) ++ String "010" ""]))
           | _ => (Uncaught e, World (data_vol_pre w) (data_vol_incr w) written)
           end.
Proof.
  intros Hdev Hz He.
  destruct (initialise_ok volt) as (w0 & Hinit & Htr0 & _).
  { intros c Hc. apply Hdev; lia. }
  destruct (loop_ok volt n 0 w0 Htr0) as (w & Hloop & _ & _).
  { intros k c Hk Hc. apply Hdev; lia. }
  { intros k Hk. apply Hz. lia. }
  exists w. split; [unfold main; rewrite Hinit, Hloop; reflexivity|].
  intros extra. unfold main. rewrite Hinit.
  replace (S n + extra) with (n + S extra) by lia.
  rewrite (while_true_app n (S extra) 1 w0 w Hloop).
  replace (1 + n) with (S n) by lia.
  cbn [while_true]. rewrite iteration_eq, He.
  destruct e; reflexivity.
Qed.

Lemma initial_raises_first (e : exn) (c : nat) :
  forall (len a : nat) (w : world A),
    a <= c < a + len ->
    (forall c', a <= c' < c -> exists v, ai_device 0 c' = Return v) ->
    ai_device 0 c = Raise e ->
    (forall c', a <= c' < a + len -> c' < length (data_vol_pre w)) ->
    fst (for_in (seq a len) initial_read w) = Raise e.
Proof.
  induction len as [|len IH]; intros a w Hc Hbefore He Hlen; [lia|].
  cbn [seq for_in]. unfold bind at 1.
  unfold initial_read at 1, bind, a_in, lift, set_pre, setitem.
  destruct (decide (a = c)) as [->|Hne].
  - rewrite He. reflexivity.
  - destruct (Hbefore a) as [v ->]; [lia|].
    destruct (decide (a < length (data_vol_pre w))) as [_|Hn];
      [|exfalso; apply Hn; apply Hlen; lia].
    apply IH; [lia| |exact He|].
    + intros c' Hc'. apply Hbefore. lia.
    + intros c' Hc'. simpl. rewrite length_insert. apply Hlen. lia.
Qed.

(** X3.  When a read of the initial pass raises, the loop never starts:
    nothing is printed, every accumulator is [0.0], and only the handlers
    of [main] see the exception.  A [ValueError], [NameError] or
    [SyntaxError], which would end the loop silently, leaves [main]
    uncaught here. *)
Theorem initial_read_raises (c : nat) (e : exn) (fuel : nat) :
  (Z.of_nat c <= high_channel)%Z ->
  (forall c', c' < c -> exists v, ai_device 0 c' = Return v) ->
  ai_device 0 c = Raise e ->
  exists w,
    main fuel = handlers e w
    /\ stdout w = []
    /\ data_vol_incr w = replicate 8 lit_0_0
    /\ (loop_catches e = true -> fst (main fuel) = Uncaught e).
Proof.
  intros Hc Hbefore He.
  pose proof (initial_frame (range low_channel (high_channel + 1)) fresh) as Hf.
  cbv zeta in Hf. fold initialise in Hf. destruct Hf as (Hi & Hs & _).
  assert (Hraise : fst (initialise fresh) = Raise e).
  { unfold initialise, range, low_channel. change (Z.to_nat 0) with 0.
    pose proof high_channel_le.
    apply (initial_raises_first e c); [lia| |exact He|].
    - intros c' Hc'. apply Hbefore. lia.
    - intros c' Hc'. unfold fresh. cbn [data_vol_pre].
      rewrite length_replicate. lia. }
  unfold main. destruct initialise as [o w0]; cbn [fst snd] in *. subst o.
  exists w0. split; [reflexivity|]. split; [exact Hs|]. split; [exact Hi|].
  destruct e; simpl; try discriminate; reflexivity.
Qed.

(** ** A loop without channels *)

Lemma while_true_no_sweep :
  swept = [] ->
  forall (fuel k : nat) (w : world A),
    (forall k', k <= k' < k + fuel -> exists v, ai_device k' 0 = Return v) ->
    while_true fuel k w
    = (Looping,
       World (data_vol_pre w) (data_vol_incr w)
         (stdout w ++ concat (replicate fuel banner))).
Proof.
  intros Hsw. induction fuel as [|fuel IH]; intros k w Hdev.
  - simpl. rewrite app_nil_r. destruct w; reflexivity.
  - cbn [while_true]. rewrite iteration_eq.
    destruct (Hdev k) as [v ->]; [lia|]. rewrite Hsw. cbn [for_in]. unfold ret.
    rewrite IH by (intros k' Hk'; apply Hdev; lia).
    cbn [with_banner data_vol_pre data_vol_incr stdout replicate concat].
    rewrite <- app_assoc. reflexivity.
Qed.

(** X4.  With at most one channel the loop sweeps nothing: it reads the
    reference voltage and prints its banner, turn after turn, divides by
    nothing, and so keeps polling even when the reference voltage is
    zero; the accumulators stay [0.0]. *)
Theorem no_channel_to_sweep (fuel : nat) :
  (number_of_channels <= 1)%Z ->
  (forall k, k <= fuel -> exists v, ai_device k 0 = Return v) ->
  exists w,
    main fuel = (Polling, w)
    /\ data_vol_incr w = replicate 8 lit_0_0
    /\ stdout w = concat (replicate fuel banner).
Proof.
  intros Hn Hdev.
  assert (Hhigh : (high_channel <= 0)%Z).
  { unfold high_channel. destruct (Z.geb_spec 7 number_of_channels); lia. }
  assert (Hsw : swept = []).
  { unfold swept, range, low_channel.
    replace (Z.to_nat (high_channel + 1 - (0 + 1))) with 0 by lia. reflexivity. }
  destruct (Hdev 0) as [v0 Hv0]; [lia|].
  destruct (initial_ok (fun _ => v0) (range low_channel (high_channel + 1)) fresh)
    as (w0 & Hinit & _ & _).
  { intros c Hc. apply elem_of_range_0 in Hc. unfold fresh. cbn [data_vol_pre].
    rewrite length_replicate. lia. }
  { intros c Hc. apply elem_of_range_0 in Hc.
    assert (c = 0) as -> by lia. exact Hv0. }
  pose proof (initial_frame (range low_channel (high_channel + 1)) fresh) as Hf.
  cbv zeta in Hf. rewrite Hinit in Hf. cbn [snd] in Hf. destruct Hf as (Hi & Hs & _).
  unfold main, initialise. rewrite Hinit, (while_true_no_sweep Hsw).
  - eexists. split; [reflexivity|]. cbn [data_vol_incr stdout].
    rewrite Hi, Hs. split; reflexivity.
  - intros k Hk. apply Hdev. lia.
Qed.

(** A channel the loop does not sweep, through any number of turns. *)
Lemma while_true_frame (c : nat) :
  c ∉ swept ->
  forall (fuel k : nat) (w : world A),
    data_vol_pre (snd (while_true fuel k w)) !! c = data_vol_pre w !! c.
Proof.
  intros Hc. induction fuel as [|fuel IH]; intros k w; [reflexivity|].
  cbn [while_true].
  pose proof (iteration_frame k w) as Hf. cbv zeta in Hf.
  destruct Hf as (_ & _ & Hfr & _).
  destruct (Hfr c Hc) as [Hp _].
  destruct (iteration k w) as [[[]|e] w1]; cbn [snd] in *.
  - rewrite IH. exact Hp.
  - destruct (loop_catches e); exact Hp.
Qed.

(** X7.  The list of previous voltages over a run.  After [n] turns, the
    entry of a channel the loop sweeps is the sample of turn [n]; the
    entry of channel 0 is still the sample of the initial pass, although
    channel 0 has been read again in every turn; the entries above
    [high_channel] are the [0.0] they were created with. *)
Theorem previous_voltages (volt : nat -> nat -> A) (n : nat) :
  (forall k c, k <= n -> c <= 7 -> ai_device k c = Return (volt k c)) ->
  (forall k, 1 <= k <= n -> is_zero (volt k 0) = false) ->
  exists w,
    main n = (Polling, w)
    /\ length (data_vol_pre w) = 8
    /\ (forall c, c ∈ swept -> data_vol_pre w !! c = Some (volt n c))
    /\ ((0 <= high_channel)%Z -> data_vol_pre w !! 0 = Some (volt 0 0))
    /\ (forall c, (high_channel < Z.of_nat c)%Z -> c < 8 ->
          data_vol_pre w !! c = Some lit_0_0).
Proof.
  intros Hdev Hz.
  destruct (initial_ok (volt 0) (range low_channel (high_channel + 1)) fresh)
    as (w0 & Hinit & Hin & Hout).
  { intros c Hc. apply elem_of_range_0 in Hc. pose proof high_channel_le.
    unfold fresh. cbn [data_vol_pre]. rewrite length_replicate. lia. }
  { intros c Hc. apply elem_of_range_0 in Hc. pose proof high_channel_le.
    apply Hdev; lia. }
  destruct (initialise_ok volt) as (w0' & Hinit' & Htr0 & _).
  { intros c Hc. apply Hdev; lia. }
  unfold initialise in Hinit'. rewrite Hinit in Hinit'.
  assert (w0' = w0) as -> by congruence.
  destruct (loop_ok volt n 0 w0 Htr0) as (w & Hloop & ((Hlen & _) & Hsw & _) & _).
  { intros k c Hk Hc. apply Hdev; lia. }
  { intros k Hk. apply Hz. lia. }
  assert (Hfr : forall c, c ∉ swept -> data_vol_pre w !! c = data_vol_pre w0 !! c).
  { intros c Hc. pose proof (while_true_frame c Hc n 1 w0) as Hf.
    rewrite Hloop in Hf. exact Hf. }
  exists w. unfold main, initialise. rewrite Hinit, Hloop.
  split; [reflexivity|]. split; [exact Hlen|]. split; [|split].
  - intros c Hc. apply (Hsw c Hc).
  - intros Hh. rewrite (Hfr 0 zero_not_swept). apply Hin.
    apply elem_of_range_0. exact Hh.
  - intros c Hc Hc8. rewrite Hfr by (rewrite elem_of_swept; lia).
    rewrite Hout by (rewrite elem_of_range_0; lia).
    unfold fresh. cbn [data_vol_pre]. apply lookup_replicate_2. exact Hc8.
Qed.

End ScriptFacts.

(** * The channels a run consults *)

Section TwoDevices.

Context {A : Type} `{Number A}.
Variable number_of_channels : Z.
Variables dev_string unique_id : string.
Variables device device' : nat -> nat -> outcome A.

Lemma for_in_ext (xs : list nat) (f g : nat -> M A unit) :
  (forall x w, x ∈ xs -> f x w = g x w) ->
  forall w, for_in xs f w = for_in xs g w.
Proof.
  induction xs as [|x xs IH]; intros Hext w; [reflexivity|].
  cbn [for_in]. unfold bind. rewrite (Hext x w) by left.
  destruct (g x w) as [[[]|e] w1]; [|reflexivity].
  apply IH. intros y w' Hy. apply Hext. now right.
Qed.

(** X5.  A run consults the device on channel 0 and on the channels up to
    [high_channel], which are below the channel count of the device and
    not above 7, and on no other channel: two devices that agree on those
    channels give the same run. *)
Theorem other_channels_not_consulted (fuel : nat) :
  (forall k c,
     c = 0 \/ ((Z.of_nat c < number_of_channels)%Z /\ c <= 7) ->
     device k c = device' k c) ->
  main number_of_channels dev_string unique_id device fuel
  = main number_of_channels dev_string unique_id device' fuel.
Proof.
  intros Hagree.
  assert (Hhigh : (high_channel number_of_channels < number_of_channels
                   /\ high_channel number_of_channels <= 7)%Z).
  { unfold high_channel. destruct (Z.geb_spec 7 number_of_channels); lia. }
  assert (Hinit : forall w,
    initialise number_of_channels device w = initialise number_of_channels device' w).
  { intros w. unfold initialise. apply for_in_ext. intros c w' Hc.
    apply elem_of_range_0 in Hc.
    unfold initial_read, bind, a_in. rewrite (Hagree 0 c) by (right; lia).
    reflexivity. }
  assert (Hit : forall k w,
    iteration number_of_channels dev_string unique_id device k w
    = iteration number_of_channels dev_string unique_id device' k w).
  { intros k w. rewrite !iteration_eq, (Hagree k 0) by now left.
    destruct (device' k 0) as [m|e]; [|reflexivity].
    apply for_in_ext. intros c w' Hc. apply elem_of_swept in Hc.
    rewrite !channel_body_eq, (Hagree k c) by (right; lia). reflexivity. }
  assert (Hloop : forall n k w,
    while_true number_of_channels dev_string unique_id device n k w
    = while_true number_of_channels dev_string unique_id device' n k w).
  { induction n as [|n IH]; intros k w; [reflexivity|].
    cbn [while_true]. rewrite Hit.
    destruct (iteration _ _ _ device' k w) as [[[]|e] w1]; [apply IH|reflexivity]. }
  unfold main. rewrite Hinit.
  destruct (initialise number_of_channels device' fresh) as [[[]|e] w0];
    [rewrite Hloop|]; reflexivity.
Qed.

End TwoDevices.

(** * Before and after the loop *)

Section SetupFacts.

Context {A : Type} `{Number A}.
Variable b : bench.
Variable ai_device : nat -> nat -> outcome A.

Lemma listing (devices : list descriptor) :
  forall (len a : nat) (st : session),
    a + len <= length devices ->
    exists lines,
      for_each (seq a len) (show_device devices) st
      = (Return tt, Session (console st ++ lines) (calls st) (daq_device st))
      /\ length lines = len.
Proof.
  induction len as [|len IH]; intros a st Hlen.
  - exists []. rewrite app_nil_r. destruct st. split; reflexivity.
  - cbn [seq for_each]. unfold and_then at 1.
    unfold show_device at 1, and_then, await, getitem, say.
    destruct (lookup_lt_is_Some_2 devices a) as [d ->]; [lia|].
    destruct (IH (S a) (Session (console st ++
                [line ("  [" ++ str_nat a ++ "] " ++ product_name d
                         ++ " (" ++ unique_id d ++ ")")]) (calls st) (daq_device st)))
      as (lines & -> & Hl); [lia|].
    eexists. cbn [console calls daq_device]. rewrite <- app_assoc.
    split; [reflexivity|]. simpl. lia.
Qed.

(** Lines 40-48 on the session of the start. *)
Lemma list_devices_start :
  inventory b <> [] ->
  exists shown,
    list_devices b start = (Return tt, Session shown [] None)
    /\ length shown = S (length (inventory b)).
Proof.
  intros Hne. unfold list_devices.
  destruct (Nat.eqb_spec (length (inventory b)) 0) as [E|_].
  { destruct (inventory b); [contradiction|discriminate]. }
  unfold range. rewrite Z.sub_0_r, Nat2Z.id. change (Z.to_nat 0) with 0.
  destruct (listing (inventory b) (length (inventory b)) 0
              (Session [line ("Found " ++ str_nat (length (inventory b))
                                ++ " DAQ device(s):")] [] None))
    as (lines & Hrun & Hl); [lia|].
  eexists. unfold and_then, say at 1, start. cbn [console calls daq_device app].
  rewrite Hrun. cbn [console calls daq_device].
  split; [reflexivity|]. simpl. lia.
Qed.

(** Lines 50-58 after the listing: the four ways they end. *)
Lemma select_device_listed (shown : list string) :
  let st := Session shown [] None in
  exists asked,
    length asked = S (length shown)
    /\ select_device b st =
       match typed b with
       | Raise e => (Raise e, Session asked [] None)
       | Return i =>
           match inventory b !! Z.to_nat i with
           | Some d =>
               if ((0 <=? i)%Z && (i <? Z.of_nat (length (inventory b)))%Z)%bool
               then (Return tt, Session asked [] (Some d))
               else (Raise (RuntimeError "Error: Invalid descriptor index"),
                     Session asked [] None)
           | None =>
               (Raise (RuntimeError "Error: Invalid descriptor index"),
                Session asked [] None)
           end
       end.
Proof.
  intros st. eexists. split; [|unfold select_device, and_then, say, await; subst st;
                                cbn [console calls daq_device]].
  2:{ destruct (typed b) as [i|e]; [|reflexivity].
      destruct (Z.leb_spec 0 i) as [H0|H0]; cbn [andb negb].
      - destruct (Z.ltb_spec i (Z.of_nat (length (inventory b)))) as [H1|H1]; cbn [negb].
        + unfold getitem_Z. destruct (Z.ltb_spec i 0); [lia|].
          destruct (Z.ltb_spec i 0); [lia|]. unfold getitem.
          destruct (lookup_lt_is_Some_2 (inventory b) (Z.to_nat i)) as [d ->]; [lia|].
          reflexivity.
        + unfold raise. destruct (inventory b !! Z.to_nat i); reflexivity.
      - unfold raise. destruct (inventory b !! Z.to_nat i); reflexivity. }
  rewrite length_app. simpl. lia.
Qed.


(** Lines 61-101 once the device object exists: how they end. *)
Lemma connect_and_report_cases (shown : list string) (d : descriptor) :
  let st := Session shown [] (Some d) in
  let r := connect_and_report b st in
  daq_device (snd r) = Some d
  /\ (analog_input b = false ->
      r = (Raise (RuntimeError no_analog_input_message), st))
  /\ (analog_input b = true ->
      calls (snd r) = [Connect]
      /\ fst r
         = match connect b with
           | Raise e => Raise e
           | Return _ =>
               match ranges_by_mode b (choose_mode b) with
               | [] => Raise IndexError
               | r0 :: _ =>
                   match enter b with
                   | Return _ | Raise NameError | Raise SyntaxError =>
                       Return (reported b r0)
                   | Raise e => Raise e
                   end
               end
           end
      /\ (forall s, fst r = Return s -> console (snd r) = [])).
Proof.
  intros st r. subst r st. unfold connect_and_report.
  destruct (analog_input b); cbn [negb].
  2:{ split; [reflexivity|]. split; [reflexivity|discriminate]. }
  unfold and_then, say, made, await, clear, pure.
  cbn [console calls daq_device app].
  destruct (connect b) as [[]|e]; cbn [fst snd console calls daq_device].
  2:{ split; [reflexivity|]. split; [discriminate|]. intros _.
      split; [reflexivity|]. split; [reflexivity|discriminate]. }
  destruct (ranges_by_mode b (choose_mode b)) as [|r0 rest] eqn:Hr;
    cbn [fst snd console calls daq_device].
  { split; [reflexivity|]. split; [discriminate|]. intros _.
    split; [reflexivity|]. split; [reflexivity|discriminate]. }
  change (getitem_Z (r0 :: rest) (range_index (r0 :: rest))) with (Return r0).
  cbn [fst snd console calls daq_device].
  destruct (enter b) as [[]|[]]; cbn [fst snd console calls daq_device];
    (split; [reflexivity|]; split; [discriminate|]; intros _;
     split; [reflexivity|]; split; [reflexivity|]; intros s Hs;
     first [reflexivity|discriminate]).
Qed.


(** X8.  With no device in the inventory, [main] prints the error of
    line 43 and returns: it creates no device object, calls nothing on a
    device and never starts the loop. *)
Theorem no_device_found (fuel : nat) :
  inventory b = [] ->
  whole_main b ai_device fuel
  = (Returned,
     Session [line (newline ++ " " ++ "Error: No DAQ devices found")] [] None).
Proof.
  intros Hnone. unfold whole_main, setup, and_then, list_devices.
  rewrite Hnone. reflexivity.
Qed.

(** X9.  A number typed that is negative or not below the number of
    devices makes [main] print the error of line 55 after the list of
    devices and return, with no device object created and no call made on
    a device. *)
Theorem invalid_descriptor_index (fuel : nat) (i : Z) :
  inventory b <> [] ->
  typed b = Return i ->
  (i < 0 \/ Z.of_nat (length (inventory b)) <= i)%Z ->
  exists shown,
    length shown = S (S (length (inventory b)))
    /\ whole_main b ai_device fuel
       = (Returned,
          Session (shown ++ [line (newline ++ " " ++ "Error: Invalid descriptor index")])
            [] None).
Proof.
  intros Hne Ht Hi.
  destruct (list_devices_start Hne) as (shown & Hlist & Hl).
  destruct (select_device_listed shown) as (asked & Hla & Hsel). cbv zeta in Hsel.
  exists asked. split; [lia|].
  unfold whole_main, setup, and_then. rewrite Hlist, Hsel, Ht.
  assert (Hout : ((0 <=? i)%Z && (i <? Z.of_nat (length (inventory b)))%Z)%bool = false).
  { destruct (Z.leb_spec 0 i), (Z.ltb_spec i (Z.of_nat (length (inventory b))));
      try reflexivity; lia. }
  rewrite Hout. destruct (inventory b !! Z.to_nat i); reflexivity.
Qed.

(** X10.  When [input] or [int] of lines 50-53 raises anything but a
    [RuntimeError] (a text that is no number makes [int] raise
    [ValueError]), the exception leaves [main] uncaught: the only handler
    there is the one for [RuntimeError].  No device object exists yet, so
    the [finally] clause releases nothing. *)
Theorem typed_raises (fuel : nat) (e : exn) :
  inventory b <> [] ->
  typed b = Raise e ->
  (forall msg, e <> RuntimeError msg) ->
  exists shown,
    whole_main b ai_device fuel = (Uncaught e, Session shown [] None).
Proof.
  intros Hne Ht Hnot.
  destruct (list_devices_start Hne) as (shown & Hlist & Hl).
  destruct (select_device_listed shown) as (asked & Hla & Hsel). cbv zeta in Hsel.
  exists asked.
  unfold whole_main, setup, and_then. rewrite Hlist, Hsel, Ht.
  destruct e; try reflexivity. exfalso. eapply Hnot. reflexivity.
Qed.

(** The setup on the session of the start, through to the device
    object. *)
Lemma setup_selected (i : Z) :
  inventory b <> [] ->
  typed b = Return i ->
  (0 <= i < Z.of_nat (length (inventory b)))%Z ->
  exists shown d,
    inventory b !! Z.to_nat i = Some d
    /\ setup b start = connect_and_report b (Session shown [] (Some d)).
Proof.
  intros Hne Ht Hi.
  destruct (list_devices_start Hne) as (shown & Hlist & Hl).
  destruct (select_device_listed shown) as (asked & Hla & Hsel). cbv zeta in Hsel.
  destruct (lookup_lt_is_Some_2 (inventory b) (Z.to_nat i)) as [d Hd]; [lia|].
  exists asked, d. split; [exact Hd|].
  unfold setup, and_then. rewrite Hlist, Hsel, Ht, Hd.
  assert (Hin : ((0 <=? i)%Z && (i <? Z.of_nat (length (inventory b)))%Z)%bool = true).
  { destruct (Z.leb_spec 0 i), (Z.ltb_spec i (Z.of_nat (length (inventory b))));
      try reflexivity; lia. }
  rewrite Hin. reflexivity.
Qed.

(** X11.  A device without analog input: [main] prints the error of line
    63 and returns.  The device object exists by then, so the [finally]
    clause releases it, after a disconnect if [is_connected()] says so;
    [connect] is never called. *)
Theorem no_analog_input (fuel : nat) (i : Z) :
  inventory b <> [] ->
  typed b = Return i ->
  (0 <= i < Z.of_nat (length (inventory b)))%Z ->
  analog_input b = false ->
  exists shown d,
    inventory b !! Z.to_nat i = Some d
    /\ whole_main b ai_device fuel
       = (Returned,
          Session (shown ++ [line (newline ++ " " ++ no_analog_input_message)])
            ((if is_connected b then [Disconnect] else []) ++ [Release])
            (Some d)).
Proof.
  intros Hne Ht Hi Hai.
  destruct (setup_selected i Hne Ht Hi) as (shown & d & Hd & Hsetup).
  exists shown, d. split; [exact Hd|].
  destruct (connect_and_report_cases shown d) as (_ & Hno & _). cbv zeta in Hno.
  unfold whole_main. rewrite Hsetup, (Hno Hai). reflexivity.
Qed.

(** X12.  An input mode without ranges: the index 0 is moved to -1 by
    lines 88-89, [ranges[-1]] on the empty list raises [IndexError] at
    line 95, after the device has been connected, and the exception
    leaves [main] uncaught; the [finally] clause still releases the
    device. *)
Theorem no_range (fuel : nat) (i : Z) :
  inventory b <> [] ->
  typed b = Return i ->
  (0 <= i < Z.of_nat (length (inventory b)))%Z ->
  analog_input b = true ->
  connect b = Return tt ->
  ranges_by_mode b (choose_mode b) = [] ->
  fst (whole_main b ai_device fuel) = Uncaught IndexError
  /\ calls (snd (whole_main b ai_device fuel))
     = (Connect :: (if is_connected b then [Disconnect] else []) ++ [Release])%list.
Proof.
  intros Hne Ht Hi Hai Hcon Hr.
  destruct (setup_selected i Hne Ht Hi) as (shown & d & Hd & Hsetup).
  destruct (connect_and_report_cases shown d) as (Hdev & _ & Hyes). cbv zeta in *.
  destruct (Hyes Hai) as (Hcalls & Hfst & _). rewrite Hcon, Hr in Hfst.
  unfold whole_main. rewrite Hsetup.
  destruct (connect_and_report b _) as [o st]; cbn [fst snd] in *. subst o.
  unfold cleanup. rewrite Hdev, Hcalls. split; reflexivity.
Qed.

(** X13.  When the setup goes through, the loop runs with the channel
    count of the input mode chosen (single-ended if the device has such
    channels, differential otherwise) and with the strings of the device
    descriptor, on a cleared terminal; while it polls, the one call made
    on the device is [connect], and once it is left the [finally] clause
    has added the release, after a disconnect if [is_connected()] says
    so. *)
Theorem setup_then_loop (fuel : nat) (i : Z) (r0 : string) (rest : list string) :
  inventory b <> [] ->
  typed b = Return i ->
  (0 <= i < Z.of_nat (length (inventory b)))%Z ->
  analog_input b = true ->
  connect b = Return tt ->
  ranges_by_mode b (choose_mode b) = r0 :: rest ->
  (enter b = Return tt \/ enter b = Raise NameError \/ enter b = Raise SyntaxError) ->
  let loop :=
    main (num_chans_by_mode b (choose_mode b))
      (dev_string (described b)) (unique_id (described b)) ai_device fuel in
  exists d,
    inventory b !! Z.to_nat i = Some d
    /\ (choose_mode b = SINGLE_ENDED <-> (0 < num_chans_by_mode b SINGLE_ENDED)%Z)
    /\ whole_main b ai_device fuel
       = (fst loop,
          Session (stdout (snd loop))
            (Connect ::
               match fst loop with
               | Polling => []
               | _ => (if is_connected b then [Disconnect] else []) ++ [Release]
               end)%list
            (Some d)).
Proof.
  intros Hne Ht Hi Hai Hcon Hr Henter loop.
  destruct (setup_selected i Hne Ht Hi) as (shown & d & Hd & Hsetup).
  pose proof (connect_and_report_cases shown d) as Hc. cbv zeta in Hc.
  destruct Hc as (Hdev & _ & Hyes).
  destruct (Hyes Hai) as (Hcalls & Hfst & Hclear). clear Hyes.
  rewrite Hcon, Hr in Hfst.
  assert (Hret : fst (connect_and_report b (Session shown [] (Some d)))
                 = Return (reported b r0)).
  { rewrite Hfst. destruct Henter as [->|[->| ->]]; reflexivity. }
  clear Hfst. specialize (Hclear _ Hret).
  exists d. split; [exact Hd|]. split.
  { unfold choose_mode. destruct (Z.leb_spec (num_chans_by_mode b SINGLE_ENDED) 0);
      split; intros; try discriminate; try reflexivity; lia. }
  unfold whole_main. rewrite Hsetup.
  destruct (connect_and_report b (Session shown [] (Some d))) as [o st].
  cbn [fst snd] in Hdev, Hcalls, Hret, Hclear. subst o.
  cbn [descriptor_of number_of_channels]. unfold reported. cbn [descriptor_of number_of_channels]. fold loop.
  destruct loop as [[| |e] w]; cbn [fst snd]; unfold cleanup;
    cbn [daq_device calls console]; rewrite ?Hdev, Hcalls; reflexivity.
Qed.

(** X14.  Whatever the bench and the device do: once [main] is left,
    a device object that was created has been released, as the last call
    made on it and after a disconnect exactly if [is_connected()] said so;
    before that at most [connect] was called on it.  While no device
    object exists nothing is called, and while the loop polls nothing has
    been released. *)
Theorem device_released (fuel : nat) :
  let r := whole_main b ai_device fuel in
  match daq_device (snd r) with
  | None => calls (snd r) = [] /\ fst r <> Polling
  | Some d =>
      d ∈ inventory b
      /\ exists before,
           (before = [] \/ before = [Connect])
           /\ calls (snd r)
              = (before ++
                 match fst r with
                 | Polling => []
                 | _ => (if is_connected b then [Disconnect] else []) ++ [Release]
                 end)%list
           /\ (fst r = Polling -> before = [Connect])
  end.
Proof.
  cbv zeta. unfold whole_main, setup, and_then.
  assert (Hcase : inventory b = [] \/ inventory b <> []).
  { destruct (inventory b); [now left|right; discriminate]. }
  destruct Hcase as [Hinv|Hne].
  { unfold list_devices. rewrite Hinv. simpl. split; [reflexivity|discriminate]. }
  destruct (list_devices_start Hne) as (shown & Hlist & _).
  destruct (select_device_listed shown) as (asked & _ & Hsel). cbv zeta in Hsel.
  rewrite Hlist, Hsel. clear Hlist Hsel.
  destruct (typed b) as [i|e].
  2:{ destruct e; simpl; split; try reflexivity; discriminate. }
  destruct (inventory b !! Z.to_nat i) as [d|] eqn:Hd.
  2:{ simpl. split; [reflexivity|discriminate]. }
  destruct ((0 <=? i)%Z && (i <? Z.of_nat (length (inventory b)))%Z)%bool.
  2:{ simpl. split; [reflexivity|discriminate]. }
  assert (Hin : d ∈ inventory b) by (eapply list_elem_of_lookup_2; eauto).
  destruct (connect_and_report_cases asked d) as (Hdev & Hno & Hyes). cbv zeta in *.
  destruct (analog_input b).
  - destruct (Hyes eq_refl) as (Hcalls & _ & Hclear).
    destruct (connect_and_report b _) as [[s|e] st]; cbn [fst snd] in *.
    + destruct (main _ _ _ _ _) as [[| |e] w]; cbn [fst snd]; unfold cleanup;
        cbn [daq_device calls console]; rewrite ?Hdev, Hcalls;
        (split; [exact Hin|]); exists [Connect];
        (split; [now right|]); split; auto; discriminate.
    + destruct e; cbn [fst snd]; unfold cleanup; cbn [daq_device calls console];
        rewrite Hdev, Hcalls; (split; [exact Hin|]); exists [Connect];
        (split; [now right|]); split; auto; discriminate.
  - rewrite (Hno eq_refl). cbn [fst snd]. unfold cleanup. cbn [daq_device calls console].
    split; [exact Hin|]. exists []. split; [now left|]. split; [reflexivity|discriminate].
Qed.

End SetupFacts.


(** * The format [{:.6f}] *)

(** The integer [round_half_even] picks is a nearest one. *)
Lemma round_half_even_nearest (num den : Z) :
  (0 < den)%Z ->
  (2 * Z.abs (num - round_half_even num den * den) <= den)%Z.
Proof.
  intros Hden. unfold round_half_even.
  pose proof (Z.div_mod num den) as Hdm.
  pose proof (Z.mod_pos_bound num den Hden) as Hb.
  destruct (Z.compare_spec (2 * (num mod den)) den) as [He|Hl|Hg];
    [destruct (Z.even (num / den))| |]; nia.
Qed.

Example format_pi : format_6f_float 3.141592653589793%float = "3.141593".
Proof. vm_compute. reflexivity. Qed.

Example format_small_negative : format_6f_float (-0.0000004)%float = "-0.000000".
Proof. vm_compute. reflexivity. Qed.

Example format_tie_down : format_6f_float 0.0078125%float = "0.007812".
Proof. vm_compute. reflexivity. Qed.

Example format_tie_up : format_6f_float 0.0234375%float = "0.023438".
Proof. vm_compute. reflexivity. Qed.

Example format_nan : format_6f_float (0 / 0)%float = "nan".
Proof. vm_compute. reflexivity. Qed.

(** * The script on doubles *)

Section DoubleArithmetic.

Local Open Scope float_scope.

(** ** Facts of binary64 arithmetic the script relies on *)

(** [-1.0 * t] is [-t], exactly. *)
Lemma mul_minus_one (t : float) : -1.0 * t = - t.
Proof.
  apply Prim2SF_inj. rewrite mul_spec, opp_spec.
  pose proof (Prim2SF_valid t) as Hv.
  change (Prim2SF (-1.0)) with (S754_finite true 4503599627370496 (-52)).
  destruct (Prim2SF t) as [[]|[]| |s m e]; try reflexivity.
  unfold SF64mul, SFmul.
  simpl in Hv. unfold bounded, canonical_mantissa in Hv.
  apply andb_prop in Hv. destruct Hv as [Hc Hb].
  apply Z.eqb_eq in Hc.
  unfold binary_round_aux.
  assert (H1 : shr_fexp prec emax (Z.pos (4503599627370496 * m)) (-52 + e) loc_Exact
               = (Build_shr_record (Zpos m) false false, e)).
  { unfold shr_fexp.
    assert (Hd : (Zdigits2 (Z.pos (4503599627370496 * m)) = Zpos (digits2_pos m) + 52)%Z).
    { cbv [Pos.mul]. cbn [Zdigits2 digits2_pos]. rewrite !Pos2Z.inj_succ. lia. }
    rewrite Hd.
    replace (Z.pos (digits2_pos m) + 52 + (-52 + e))%Z with (Z.pos (digits2_pos m) + e)%Z by lia.
    rewrite Hc.
    replace (e - (-52 + e))%Z with 52%Z by lia.
    unfold shr. f_equal. lia. }
  rewrite H1. cbn [shr_m loc_of_shr_record round_nearest_even].
  assert (H2 : shr_fexp prec emax (Z.pos m) e loc_Exact
               = (Build_shr_record (Zpos m) false false, e)).
  { unfold shr_fexp. cbn [Zdigits2]. rewrite Hc, Z.sub_diag. reflexivity. }
  rewrite H2. cbn [shr_m]. rewrite Hb. reflexivity.
Qed.

(** A finite double is a zero or a finite value of the format. *)
Lemma is_finite_SF (x : float) :
  PrimFloat.is_finite x = true ->
  match Prim2SF x with
  | S754_zero _ | S754_finite _ _ _ => True
  | _ => False
  end.
Proof.
  unfold PrimFloat.is_finite, is_nan, is_infinity.
  rewrite !FloatAxioms.eqb_spec, abs_spec.
  change (Prim2SF infinity) with (S754_infinity false).
  destruct (Prim2SF x) as [s|[]| |s m e]; simpl; auto; try discriminate.
Qed.

Lemma sub_self (v : float) : PrimFloat.is_finite v = true -> v - v = 0.
Proof.
  intros Hf. apply is_finite_SF in Hf.
  apply Prim2SF_inj. rewrite sub_spec.
  destruct (Prim2SF v) as [[]|[]| |s m e]; try contradiction; try reflexivity.
  unfold SF64sub, SFsub. rewrite Z.sub_diag. reflexivity.
Qed.

Lemma add_zero (acc : float) : same_value acc (acc + 0).
Proof.
  unfold same_value.
  destruct (Prim2SF acc) as [[]|s| |s m e] eqn:E.
  - right. rewrite FloatAxioms.eqb_spec, add_spec, E. reflexivity.
  - left. apply Prim2SF_inj. rewrite add_spec, E. reflexivity.
  - left. apply Prim2SF_inj. rewrite add_spec, E. destruct s; reflexivity.
  - left. apply Prim2SF_inj. rewrite add_spec, E. reflexivity.
  - left. apply Prim2SF_inj. rewrite add_spec, E. reflexivity.
Qed.

(** The sign of a rounded product is the sign it was given. *)
Lemma binary_round_aux_sign (sx : bool) (mx ex : Z) (lx : location) :
  match binary_round_aux prec emax sx mx ex lx with
  | S754_zero s | S754_infinity s | S754_finite s _ _ => s = sx
  | S754_nan => True
  end.
Proof.
  unfold binary_round_aux.
  destruct (shr_fexp prec emax mx ex lx) as [mrs e'].
  destruct (shr_fexp prec emax _ e' loc_Exact) as [mrs' e''].
  destruct (shr_m mrs'); auto.
  destruct (e'' <=? emax - prec)%Z; auto.
Qed.

(** A reference voltage that is not negative gives a tolerance that is
    not negative. *)
Lemma tolerance_not_negative (m : float) :
  (m <? 0) = false -> (m * 0.9 <? 0) = false.
Proof.
  rewrite !FloatAxioms.ltb_spec, mul_spec.
  change (Prim2SF 0.9) with (S754_finite false 8106479329266893 (-53)).
  change (Prim2SF 0) with (S754_zero false).
  destruct (Prim2SF m) as [s|s| |s mm e]; try (destruct s); try reflexivity; try discriminate.
  intros _. unfold SF64mul, SFmul.
  pose proof (binary_round_aux_sign (xorb false false) (Z.pos (mm * 8106479329266893))
                (e + -53) loc_Exact) as Hs.
  destruct (binary_round_aux _ _ _ _ _ _) as [s|s| |s m' e']; simpl in Hs; subst; reflexivity.
Qed.

(** Zero lies within a tolerance that is not negative. *)
Lemma zero_within (t : float) :
  (t <? 0) = false -> (t <? 0) = false /\ (0 <? -1.0 * t) = false.
Proof.
  intros Ht. split; [exact Ht|]. rewrite mul_minus_one.
  revert Ht. rewrite !FloatAxioms.ltb_spec, opp_spec.
  change (Prim2SF 0) with (S754_zero false).
  destruct (Prim2SF t) as [s|s| |s m e]; try (destruct s); try reflexivity; discriminate.
Qed.

(** A difference whose magnitude does not exceed the tolerance fires
    neither comparison. *)
Lemma abs_within (d t : float) :
  (abs d <=? t) = true -> (t <? d) = false /\ (d <? -1.0 * t) = false.
Proof.
  rewrite mul_minus_one, FloatAxioms.leb_spec, !FloatAxioms.ltb_spec, abs_spec, opp_spec.
  unfold SFleb, SFltb.
  destruct (Prim2SF d) as [s1|s1| |s1 m1 e1], (Prim2SF t) as [s2|s2| |s2 m2 e2];
    try (destruct s1); try (destruct s2); simpl; try (intros; split; reflexivity);
    try discriminate.
  all: rewrite ?Pos.compare_cont_spec, ?(Z.compare_antisym e1 e2),
         ?(Pos.compare_antisym m1 m2);
    destruct (e1 ?= e2)%Z; simpl; try discriminate; try (intros; split; reflexivity);
    destruct (m1 ?= m2)%positive; simpl; try discriminate; intros; split; reflexivity.
Qed.

(** Below the negated tolerance is not above the tolerance, when the
    tolerance is not negative. *)
Lemma below_not_above (d t : float) :
  (d <? -1.0 * t) = true -> (t <? 0) = false -> (t <? d) = false.
Proof.
  rewrite mul_minus_one, !FloatAxioms.ltb_spec, opp_spec.
  change (Prim2SF 0) with (S754_zero false).
  unfold SFltb.
  destruct (Prim2SF d) as [s1|s1| |s1 m1 e1], (Prim2SF t) as [s2|s2| |s2 m2 e2];
    try (destruct s1); try (destruct s2); simpl; try reflexivity; try discriminate.
Qed.

End DoubleArithmetic.

(** ** The script on a device of doubles *)

Section Doubles.

Variable number_of_channels : Z.
Variables dev_string unique_id : string.
Variable ai_device : nat -> nat -> outcome float.

Lemma compensated_zero (m : float) :
  (m <? 0)%float = false -> compensated m (m * 0.9)%float 0%float = 0%float.
Proof.
  intros Hm. apply tolerance_not_negative in Hm.
  destruct (zero_within _ Hm) as [H1 H2].
  unfold compensated, gt. simpl. rewrite H1. simpl in H2. rewrite H2. reflexivity.
Qed.

(** C3, as amended.  An update whose sample equals the previous voltage
    (a finite voltage, so the difference is [0.0]) under a reference
    voltage that is not negative adds [0.0] to the accumulator, which
    leaves its value as it was; the angle it reports is that accumulator
    [/ m * 2 * math.pi]. *)
Theorem same_sample_keeps_accumulator
    (k ch : nat) (w : world float) (m v acc : float) :
  data_vol_pre w !! ch = Some v ->
  data_vol_incr w !! ch = Some acc ->
  ai_device k ch = Return v ->
  PrimFloat.is_finite v = true ->
  (m <? 0)%float = false ->
  let r := channel_body ai_device k m (m * 0.9)%float ch w in
  (v - v = 0)%float
  /\ exists acc',
       data_vol_incr (snd r) !! ch = Some acc'
       /\ acc' = (acc + 0)%float
       /\ same_value acc acc'
       /\ ((m =? 0)%float = false ->
           fst r = Return tt
           /\ stdout (snd r)
              = (stdout w
                 ++ [line (data_line ch (acc' / m * 2 * 3.141592653589793)%float)])%list).
Proof.
  intros Hp Ha Hv Hfin Hm r.
  pose proof (sub_self v Hfin) as Hd.
  split; [exact Hd|].
  assert (Hl : ch < length (data_vol_incr w)) by (eapply lookup_lt_Some; eauto).
  subst r. rewrite channel_body_eq, Hv, Hp, Ha. cbv zeta.
  change (sub v v) with (v - v)%float. rewrite Hd, (compensated_zero m Hm).
  exists (acc + 0)%float. split.
  { destruct (is_zero m); simpl; now apply list_lookup_insert_eq. }
  split; [reflexivity|]. split; [apply add_zero|].
  intros Hz. change (is_zero m) with (m =? 0)%float. rewrite Hz. simpl. auto.
Qed.

(** C4, as amended.  A difference above the tolerance is compensated by
    subtracting [data_vol_max]; a difference below the negated tolerance
    is compensated by adding [data_vol_max] when the reference voltage is
    not negative.  From 9.0 to 0.5 with [data_vol_max = 10.0] the
    difference -8.5 lies within the tolerance 9.0 and is added as it is;
    from 4.8 to 0.1 with [data_vol_max = 5.0] the amount added is
    [(0.1 - 4.8) + 5.0], and from 0.1 to 4.8 it is [(4.8 - 0.1) - 5.0]. *)
Theorem jumps_compensated
    (k ch : nat) (w : world float) (m p v acc : float) :
  data_vol_pre w !! ch = Some p ->
  data_vol_incr w !! ch = Some acc ->
  ai_device k ch = Return v ->
  let t := (m * 0.9)%float in
  let d := (v - p)%float in
  let acc' := data_vol_incr (snd (channel_body ai_device k m t ch w)) !! ch in
  ((t <? d)%float = true -> acc' = Some (acc + (d - m))%float)
  /\ ((d <? - t)%float = true -> (m <? 0)%float = false ->
      acc' = Some (acc + (d + m))%float)
  /\ (p = 9.0%float -> v = 0.5%float -> m = 10.0%float ->
      acc' = Some (acc + (-8.5))%float)
  /\ (p = 4.8%float -> v = 0.1%float -> m = 5.0%float ->
      acc' = Some (acc + ((0.1 - 4.8) + 5.0))%float)
  /\ (p = 0.1%float -> v = 4.8%float -> m = 5.0%float ->
      acc' = Some (acc + ((4.8 - 0.1) - 5.0))%float).
Proof.
  intros Hp Ha Hv t d acc'.
  assert (Hl : ch < length (data_vol_incr w)) by (eapply lookup_lt_Some; eauto).
  assert (Hacc : acc' = Some (acc + compensated m t d)%float).
  { subst acc'. rewrite channel_body_eq, Hv, Hp, Ha. cbv zeta.
    destruct (is_zero m); simpl; now apply list_lookup_insert_eq. }
  rewrite Hacc. clear Hacc acc'.
  split; [|split; [|split; [|split]]].
  - intros Hup. unfold compensated, gt. simpl. rewrite Hup. reflexivity.
  - intros Hdown Hm. rewrite <- mul_minus_one in Hdown.
    pose proof (below_not_above d t Hdown (tolerance_not_negative m Hm)) as Hno.
    unfold compensated, gt. simpl. simpl in Hdown. rewrite Hno, Hdown. reflexivity.
  - intros -> -> ->. reflexivity.
  - intros -> -> ->. reflexivity.
  - intros -> -> ->. reflexivity.
Qed.

(** C2.  Over a run in which the difference of every turn, for one
    channel, does not exceed that turn's tolerance in magnitude, the
    accumulator of the channel after the run is the sum of the differences,
    added up turn by turn from [0.0], and the angle the last turn prints
    for the channel is that sum [/ data_vol_max * 2 * math.pi], with the
    reference voltage of the last turn. *)
Theorem small_steps_sum (volt : nat -> nat -> float) (n c : nat) :
  (forall k c', k <= n -> c' <= 7 -> ai_device k c' = Return (volt k c')) ->
  (forall k, 1 <= k <= n -> (volt k 0%nat =? 0)%float = false) ->
  c ∈ swept number_of_channels ->
  1 <= n ->
  (forall i, 1 <= i <= n ->
     (abs (volt i c - volt (i - 1)%nat c) <=? volt i 0%nat * 0.9)%float = true) ->
  let sum :=
    fold_left PrimFloat.add
      (map (fun i => (volt i c - volt (i - 1)%nat c)%float) (seq 1 n)) 0%float in
  exists w out,
    main number_of_channels dev_string unique_id ai_device n = (Polling, w)
    /\ data_vol_incr w !! c = Some sum
    /\ stdout w
       = (out ++ banner dev_string unique_id
              ++ map (report w (volt n 0)) (swept number_of_channels))%list
    /\ report w (volt n 0) c
       = line (data_line c (sum / volt n 0%nat * 2 * 3.141592653589793)%float).
Proof.
  intros Hdev Hz Hc Hn Hsmall sum.
  destruct (main_ok (H := binary64) number_of_channels dev_string unique_id
              ai_device volt n Hdev Hz)
    as (w & Hmain & (_ & Hsw & _) & Hout).
  destruct (Hout Hn) as [out Hstd].
  destruct (Hsw c Hc) as [_ Hacc].
  assert (Hsum : total volt c n = sum).
  { apply (total_no_wrap (H := binary64) volt c n). intros i Hi. cbv zeta.
    destruct (abs_within _ _ (Hsmall i Hi)) as [H1 H2]. split; assumption. }
  rewrite Hsum in Hacc.
  exists w, out. split; [exact Hmain|]. split; [exact Hacc|]. split; [exact Hstd|].
  unfold report. rewrite Hacc. reflexivity.
Qed.

(** ** The lines of a turn *)

Lemma string_app_assoc (a b c : string) : (a ++ b) ++ c = a ++ (b ++ c).
Proof. induction a as [|x a IH]; simpl; [reflexivity|]. now rewrite IH. Qed.

Lemma round_half_even_nonneg (num den : Z) :
  (0 <= num)%Z -> (0 < den)%Z -> (0 <= round_half_even num den)%Z.
Proof.
  intros Hn Hd. unfold round_half_even.
  assert (0 <= num / den)%Z by (apply Z.div_pos; lia).
  destruct (2 * (num mod den) ?= den)%Z; [destruct (Z.even (num / den))| |]; lia.
Qed.

Lemma round_half_even_tie (num den : Z) :
  (0 < den)%Z ->
  (2 * Z.abs (num - round_half_even num den * den) = den)%Z ->
  Z.even (round_half_even num den) = true.
Proof.
  intros Hden. unfold round_half_even.
  pose proof (Z.div_mod num den) as Hdm.
  pose proof (Z.mod_pos_bound num den Hden) as Hb.
  destruct (Z.compare_spec (2 * (num mod den)) den) as [He|Hl|Hg].
  - destruct (Z.even (num / den)) eqn:Ev; [auto|].
    intros _. rewrite Z.even_add, Ev. reflexivity.
  - intros Ht. exfalso. nia.
  - intros Ht. exfalso. nia.
Qed.

Lemma fixed6_six_places (s : bool) (num den : Z) :
  (0 <= num)%Z -> (0 < den)%Z ->
  exists (n : Z) (d1 d2 d3 d4 d5 d6 : nat),
    (0 <= n)%Z
    /\ (2 * Z.abs (num * 1000000 - n * den) <= den)%Z
    /\ ((2 * Z.abs (num * 1000000 - n * den) = den)%Z -> Z.even n = true)
    /\ d1 <= 9 /\ d2 <= 9 /\ d3 <= 9 /\ d4 <= 9 /\ d5 <= 9 /\ d6 <= 9
    /\ (n mod 1000000
        = 100000 * Z.of_nat d1 + 10000 * Z.of_nat d2 + 1000 * Z.of_nat d3
          + 100 * Z.of_nat d4 + 10 * Z.of_nat d5 + Z.of_nat d6)%Z
    /\ fixed6 s num den
       = (if s then "-" else "")
           ++ NilZero.string_of_uint (N.to_uint (Z.to_N (n / 1000000)))
           ++ "."
           ++ String (ascii_of_nat (48 + d1))
                (String (ascii_of_nat (48 + d2))
                (String (ascii_of_nat (48 + d3))
                (String (ascii_of_nat (48 + d4))
                (String (ascii_of_nat (48 + d5))
                (String (ascii_of_nat (48 + d6)) "")))))%string.
Proof.
  intros Hn Hd.
  set (n := round_half_even (num * 1000000) den).
  set (r := (n mod 1000000)%Z).
  assert (Hr : (0 <= r < 1000000)%Z) by (apply Z.mod_pos_bound; lia).
  exists n,
    (Z.to_nat ((r / 100000) mod 10)), (Z.to_nat ((r / 10000) mod 10)),
    (Z.to_nat ((r / 1000) mod 10)), (Z.to_nat ((r / 100) mod 10)),
    (Z.to_nat ((r / 10) mod 10)), (Z.to_nat (r mod 10)).
  split; [apply round_half_even_nonneg; lia|].
  split; [apply round_half_even_nearest; exact Hd|].
  split; [apply round_half_even_tie; exact Hd|].
  assert (Hd10 : forall x, (0 <= x mod 10 < 10)%Z) by (intros x; apply Z.mod_pos_bound; lia).
  repeat (split; [pose proof (Hd10 (r / 100000)%Z); pose proof (Hd10 (r / 10000)%Z);
                  pose proof (Hd10 (r / 1000)%Z); pose proof (Hd10 (r / 100)%Z);
                  pose proof (Hd10 (r / 10)%Z); pose proof (Hd10 r); lia|]).
  split.
  - rewrite !Z2Nat.id by apply Hd10.
    fold r. clearbody r. clear - Hr.
    Z.to_euclidean_division_equations. lia.
  - unfold fixed6. fold n. fold r. destruct s; reflexivity.
Qed.

Lemma format_6f_six_places (x : float) : six_places x (format_6f_float x).
Proof.
  unfold six_places, format_6f_float.
  destruct (Prim2SF x) as [s|s| |s m e].
  - destruct s; reflexivity.
  - destruct s; reflexivity.
  - reflexivity.
  - destruct e as [|p|p].
    + destruct (fixed6_six_places s (Zpos m * 2 ^ 0) 1)
        as (n & d1 & d2 & d3 & d4 & d5 & d6 & H); [lia|lia|].
      exists n, d1, d2, d3, d4, d5, d6. exact H.
    + destruct (fixed6_six_places s (Zpos m * 2 ^ Zpos p) 1)
        as (n & d1 & d2 & d3 & d4 & d5 & d6 & H); [lia|lia|].
      exists n, d1, d2, d3, d4, d5, d6. exact H.
    + destruct (fixed6_six_places s (Zpos m) (Z.pow_pos 2 p))
        as (n & d1 & d2 & d3 & d4 & d5 & d6 & H).
      { lia. }
      { change (Z.pow_pos 2 p) with (2 ^ Zpos p)%Z. lia. }
      exists n, d1, d2, d3, d4, d5, d6. cbv zeta.
      change (Z.max (Zneg p) 0) with 0%Z.
      change (Z.max (- Zneg p) 0) with (Zpos p).
      change (2 ^ Zpos p)%Z with (Z.pow_pos 2 p).
      replace (Zpos m * 2 ^ 0 * 1000000)%Z with (Zpos m * 1000000)%Z by lia.
      exact H.
Qed.

Lemma Forall2_map_r {X Y : Type} (P : X -> Y -> Prop) (f : X -> Y) (l : list X) :
  (forall x, x ∈ l -> P x (f x)) -> Forall2 P l (map f l).
Proof.
  induction l as [|x l IH]; intros Hall; simpl; constructor.
  - apply Hall. left.
  - apply IH. intros y Hy. apply Hall. now right.
Qed.

Lemma high_channel_min :
  high_channel number_of_channels = Z.min (number_of_channels - 1) 7.
Proof. unfold high_channel. destruct (Z.geb_spec 7 number_of_channels); lia. Qed.


End Doubles.

(** * The script on rationals *)

Section Exact.

Variable number_of_channels : Z.
Variables dev_string unique_id : string.
Variable ai_device : nat -> nat -> outcome Qc.

Lemma Z2Qc_add (a b : Z) : Z2Qc (a + b) = (Z2Qc a + Z2Qc b)%Qc.
Proof.
  unfold Z2Qc. apply Qc_is_canon. unfold Qcplus. simpl.
  rewrite !Qred_correct. rewrite inject_Z_plus. reflexivity.
Qed.

Lemma exact_is_zero (m : Qc) : m <> 0%Qc -> is_zero (Number := exact) m = false.
Proof.
  intros Hm. simpl. destruct (Qc_eq_bool m 0) eqn:E; [|reflexivity].
  apply Qc_eq_bool_correct in E. contradiction.
Qed.

(** What one turn adds, as the difference plus a multiple of the
    reference voltage. *)
Lemma exact_increment (volt : nat -> nat -> Qc) (c i : nat) :
  exists j : Z,
    (-1 <= j <= 1)%Z
    /\ increment (H := exact) volt c i
       = (volt i c - volt (i - 1)%nat c + Z2Qc j * volt i 0%nat)%Qc.
Proof.
  unfold increment. cbv zeta.
  set (m := volt i 0). set (d := (volt i c - volt (i - 1)%nat c)%Qc).
  change (sub (Number := exact) (volt i c) (volt (i - 1) c)) with d.
  destruct (compensated_cases (H := exact) m
              (mul (Number := exact) m (tolerance_ratio (H := exact))) d)
    as [-> | [-> | ->]].
  - exists (-1)%Z. split; [lia|]. simpl. change (Z2Qc (-1)) with (- (1))%Qc. ring.
  - exists 1%Z. split; [lia|]. simpl. change (Z2Qc 1) with 1%Qc. ring.
  - exists 0%Z. split; [lia|]. simpl. change (Z2Qc 0) with 0%Qc. ring.
Qed.

Lemma exact_total (volt : nat -> nat -> Qc) (c : nat) (m : Qc) (n : nat) :
  (forall k, 1 <= k <= n -> volt k 0 = m) ->
  exists j : Z,
    total (H := exact) volt c n = (volt n c - volt 0%nat c + Z2Qc j * m)%Qc.
Proof.
  induction n as [|n IH]; intros Hm.
  - exists 0%Z. unfold total. simpl. change (Z2Qc 0) with 0%Qc. ring.
  - destruct IH as [j Hj]; [intros k Hk; apply Hm; lia|].
    destruct (exact_increment volt c (S n)) as (j' & _ & Hj').
    exists (j + j')%Z. rewrite total_S, Hj, Hj', Z2Qc_add, (Hm (S n)) by lia.
    replace (S n - 1) with n by lia. simpl. ring.
Qed.


Lemma Qc_ltb_lt (x y : Qc) : Qc_ltb x y = true <-> (x < y)%Q.
Proof.
  unfold Qc_ltb. rewrite Qlt_alt. unfold Qccompare.
  destruct (x ?= y)%Q; split; intros; congruence.
Qed.

Lemma Qc_ltb_ge (x y : Qc) : Qc_ltb x y = false <-> (y <= x)%Q.
Proof.
  pose proof (Qc_ltb_lt x y) as Hlt.
  destruct (Qc_ltb x y).
  - split; [discriminate|]. intros Hle. pose proof (proj1 Hlt eq_refl). lra.
  - split; [|reflexivity]. intros _. destruct (Qlt_le_dec x y) as [Hl|Hl]; [|exact Hl].
    apply Hlt in Hl. discriminate.
Qed.

(** One update on rationals, for a sensor whose voltage is its position
    modulo the full-scale voltage: a move of less than a tenth of full
    scale is added as it is, whether or not the voltage wrapped. *)
Lemma unwrap_step (m v v' u u' : Qc) (k k' : Z) :
  (0 < m)%Q ->
  v = (u - Z2Qc k * m)%Qc -> v' = (u' - Z2Qc k' * m)%Qc ->
  (0 <= v)%Q -> (v < m)%Q -> (0 <= v')%Q -> (v' < m)%Q ->
  (- (1 # 10) * m < u' - u)%Q -> (u' - u < (1 # 10) * m)%Q ->
  compensated (H := exact) m (mul (Number := exact) m (tolerance_ratio (H := exact)))
    (sub (Number := exact) v' v) = (u' - u)%Qc.
Proof.
  intros Hm Hv Hv' H0 H1 H0' H1' Hlo Hhi.
  apply (f_equal this) in Hv, Hv'.
  assert (Ev : (v == u - inject_Z k * m)%Q).
  { rewrite Hv. unfold Z2Qc. simpl. rewrite !Qred_correct. reflexivity. }
  assert (Ev' : (v' == u' - inject_Z k' * m)%Q).
  { rewrite Hv'. unfold Z2Qc. simpl. rewrite !Qred_correct. reflexivity. }
  clear Hv Hv'.
  assert (Hk : (k' - k = -1 \/ k' - k = 0 \/ k' - k = 1)%Z).
  { assert (Hd : (inject_Z (k' - k) * m == (u' - u) - (v' - v))%Q).
    { unfold Zminus. rewrite inject_Z_plus, inject_Z_opp. rewrite Ev, Ev'. ring. }
    destruct (Z_lt_le_dec (k' - k) (-1)) as [Hl|Hl].
    - exfalso. assert (Hq : (inject_Z (k' - k) <= -2)%Q).
      { change (-2)%Q with (inject_Z (-2)). rewrite <- Zle_Qle. lia. }
      nra.
    - destruct (Z_lt_le_dec 1 (k' - k)) as [Hg|Hg]; [|lia].
      exfalso. assert (Hq : (2 <= inject_Z (k' - k))%Q).
      { change 2%Q with (inject_Z 2). rewrite <- Zle_Qle. lia. }
      nra. }
  assert (Hd : (v' - v == (u' - u) - inject_Z (k' - k) * m)%Q).
  { unfold Zminus. rewrite inject_Z_plus, inject_Z_opp. rewrite Ev, Ev'. ring. }
  unfold compensated, gt. simpl.
  set (d := (v' - v)%Qc).
  assert (Ed : (d == v' - v)%Q).
  { unfold d. simpl. rewrite !Qred_correct. ring. }
  set (t := (m * Q2Qc (9 # 10))%Qc).
  assert (Et : (t == (9 # 10) * m)%Q).
  { unfold t. simpl. rewrite !Qred_correct. ring. }
  set (nt := (Q2Qc (-1 # 1) * t)%Qc).
  assert (Ent : (nt == - ((9 # 10) * m))%Q).
  { unfold nt, t. simpl. rewrite !Qred_correct. ring. }
  destruct Hk as [Hk|[Hk|Hk]]; rewrite Hk in Hd.
  - assert (Hgt : Qc_ltb t d = true).
    { apply Qc_ltb_lt. rewrite Et, Ed, Hd. change (inject_Z (-1)) with (-1)%Q. lra. }
    rewrite Hgt. apply Qc_is_canon. simpl. rewrite !Qred_correct.
    rewrite Hd. change (inject_Z (-1)) with (-1)%Q. ring.
  - assert (Hgt : Qc_ltb t d = false).
    { apply Qc_ltb_ge. rewrite Et, Ed, Hd. change (inject_Z 0) with 0%Q. lra. }
    assert (Hlt : Qc_ltb d nt = false).
    { apply Qc_ltb_ge. rewrite Ent, Ed, Hd. change (inject_Z 0) with 0%Q. lra. }
    rewrite Hgt, Hlt. apply Qc_is_canon. simpl. rewrite !Qred_correct.
    rewrite Hd. change (inject_Z 0) with 0%Q. ring.
  - assert (Hgt : Qc_ltb t d = false).
    { apply Qc_ltb_ge. rewrite Et, Ed, Hd. change (inject_Z 1) with 1%Q. lra. }
    assert (Hlt : Qc_ltb d nt = true).
    { apply Qc_ltb_lt. rewrite Ent, Ed, Hd. change (inject_Z 1) with 1%Q. lra. }
    rewrite Hgt, Hlt. apply Qc_is_canon. simpl. rewrite !Qred_correct.
    rewrite Hd. change (inject_Z 1) with 1%Q. ring.
Qed.


End Exact.

(** * Runs on concrete devices *)

(** ** C1 *)


(** ** C2 *)

Lemma small_steps_sum_example :
  exists w out,
    main 2 "" "" slow_device 2 = (Polling, w)
    /\ data_vol_incr w !! 1 = Some (0 + (0.2 - 0.1) + (0.4 - 0.2))%float
    /\ stdout w
       = (out ++ banner "" "" ++ map (report w 5.0%float) (swept 2))%list
    /\ report w 5.0%float 1
       = line (data_line 1
                 ((0 + (0.2 - 0.1) + (0.4 - 0.2)) / 5.0 * 2 * 3.141592653589793)%float).
Proof.
  apply (small_steps_sum 2 "" "" slow_device slow_volt 2 1).
  - intros k c _ _. reflexivity.
  - intros k _. reflexivity.
  - apply elem_of_swept. vm_compute. split; discriminate.
  - lia.
  - intros i Hi. assert (Hi' : i = 1 \/ i = 2) by lia.
    destruct Hi' as [-> | ->]; reflexivity.
Defined.

(** ** C3 *)

(** With a reference voltage of -5.0 the tolerance is -4.5, a difference
    of 0.0 is above it, and the update of an unchanged voltage 1.0 moves
    the accumulator from 0.0 to 5.0. *)
Lemma same_sample_negative_reference :
  data_vol_pre (one_channel 1.0%float) !! 1 = Some 1.0%float
  /\ constant_device 1.0%float 1 1 = Return 1.0%float
  /\ data_vol_incr (one_channel 1.0%float) !! 1 = Some 0%float
  /\ data_vol_incr
       (snd (channel_body (constant_device 1.0%float) 1 (-5.0)%float
               (-5.0 * 0.9)%float 1 (one_channel 1.0%float))) !! 1
     = Some 5.0%float
  /\ Some 5.0%float <> Some 0%float.
Proof.
  split; [reflexivity|]. split; [reflexivity|]. split; [reflexivity|].
  split; [vm_compute; reflexivity|]. different_doubles.
Qed.

Lemma same_sample_example :
  (1.0 - 1.0 = 0)%float
  /\ exists acc',
       data_vol_incr
         (snd (channel_body (constant_device 1.0%float) 1 5.0%float
                 (5.0 * 0.9)%float 1 (one_channel 1.0%float))) !! 1
       = Some acc'
       /\ acc' = (0 + 0)%float
       /\ same_value 0%float acc'
       /\ ((5.0 =? 0)%float = false ->
           fst (channel_body (constant_device 1.0%float) 1 5.0%float
                  (5.0 * 0.9)%float 1 (one_channel 1.0%float)) = Return tt
           /\ stdout
                (snd (channel_body (constant_device 1.0%float) 1 5.0%float
                        (5.0 * 0.9)%float 1 (one_channel 1.0%float)))
              = (stdout (one_channel 1.0%float)
                 ++ [line (data_line 1 (acc' / 5.0 * 2 * 3.141592653589793)%float)])%list).
Proof.
  apply (same_sample_keeps_accumulator (constant_device 1.0%float) 1 1
           (one_channel 1.0%float) 5.0%float 1.0%float 0%float);
    reflexivity.
Defined.

(** ** C4 *)

(** From 9.0 to 0.5 under [data_vol_max = 10.0] the difference is -8.5
    and the tolerance 9.0: the update adds -8.5, not -8.5 + 10.0.  Under
    [data_vol_max = -5.0] a fall from 2.0 to 1.0 is below the negated
    tolerance 4.5 and above the tolerance -4.5: the update adds
    -1.0 - (-5.0), not -1.0 + (-5.0). *)
Lemma downward_jump_not_compensated :
  (data_vol_incr
     (snd (channel_body (constant_device 0.5%float) 1 10.0%float
             (10.0 * 0.9)%float 1 (one_channel 9.0%float))) !! 1
   = Some (0 + (-8.5))%float
   /\ Some (0 + (-8.5))%float <> Some (0 + ((0.5 - 9.0) + 10.0))%float)
  /\ ((1.0 - 2.0 <? - (-5.0 * 0.9))%float = true
      /\ data_vol_incr
           (snd (channel_body (constant_device 1.0%float) 1 (-5.0)%float
                   (-5.0 * 0.9)%float 1 (one_channel 2.0%float))) !! 1
         = Some (0 + ((1.0 - 2.0) - (-5.0)))%float
      /\ Some (0 + ((1.0 - 2.0) - (-5.0)))%float
         <> Some (0 + ((1.0 - 2.0) + (-5.0)))%float).
Proof.
  split; [split|split; [|split]];
    try (vm_compute; reflexivity); different_doubles.
Qed.

Lemma jumps_compensated_example :
  data_vol_incr
    (snd (channel_body (constant_device 0.1%float) 1 5.0%float
            (5.0 * 0.9)%float 1 (one_channel 4.8%float))) !! 1
  = Some (0 + ((0.1 - 4.8) + 5.0))%float.
Proof.
  apply (jumps_compensated (constant_device 0.1%float) 1 1 (one_channel 4.8%float)
           5.0%float 4.8%float 0.1%float 0%float eq_refl eq_refl eq_refl);
    reflexivity.
Defined.

(** ** C5 *)

(** The second turn reads a reference voltage of 0.0: the division of
    line 135 raises, none of the [except] clauses takes the exception, and
    [main] does not return. *)
Lemma zero_reference_escapes :
  fst (main 8 "" "" dead_device 2) = Uncaught ZeroDivisionError
  /\ fst (main 8 "" "" dead_device 2) <> Returned.
Proof.
  split; [vm_compute; reflexivity|]. vm_compute. discriminate.
Qed.

Lemma loop_exceptions_example :
  fst (main 3 "" "" dead_device (2 + 5)) = Uncaught ZeroDivisionError.
Proof.
  refine (proj1 (loop_exceptions (H := binary64) 3 "" "" dead_device dead_volt 1
                   0.0%float 1.0%float _ _ _ eq_refl eq_refl eq_refl) 5).
  - intros k c _ _. reflexivity.
  - intros k Hk. assert (k = 1) as -> by lia. reflexivity.
  - vm_compute. discriminate.
Defined.

(** ** C6 *)

Lemma accumulator_running_total_example :
  exists w,
    main 2 "" "" wrap_device 2 = (Polling, w)
    /\ data_vol_incr w !! 1
       = Some (0 + (0.2 - 0.1) + ((4.8 - 0.2) - 5.0))%float
    /\ data_vol_incr w !! 0 = Some 0%float.
Proof.
  destruct (accumulator_running_total (H := binary64) 2 "" "" wrap_device wrap_volt 2)
    as (w & Hmain & _ & Hsw & Hrest).
  - intros k c _ _. reflexivity.
  - intros k _. reflexivity.
  - exists w. split; [exact Hmain|]. split.
    + rewrite Hsw; [reflexivity|]. apply elem_of_swept. vm_compute. split; discriminate.
    + apply Hrest; [|lia]. rewrite elem_of_swept. lia.
Defined.

(** ** C7 *)

Lemma update_frame_example :
  data_vol_pre
    (snd (channel_body wrap_device 2 5.0%float (5.0 * 0.9)%float 1
            (one_channel 0.2%float))) !! 1 = Some 4.8%float
  /\ data_vol_incr
       (snd (channel_body wrap_device 2 5.0%float (5.0 * 0.9)%float 1
               (one_channel 0.2%float))) !! 3
     = data_vol_incr (one_channel 0.2%float) !! 3.
Proof.
  destruct (update_frame (H := binary64) wrap_device 2 5.0%float (5.0 * 0.9)%float 1
              (one_channel 0.2%float) 4.8%float eq_refl)
    as (Hpre & Hret & Hothers).
  - vm_compute. lia.
  - vm_compute. lia.
  - split.
    + apply Hpre. apply Hret. reflexivity.
    + apply (Hothers 3). lia.
Defined.

(** ** C8 *)

(** Two channels, 0 and 1: the first turn prints one data line, for
    channel 1.  On [dead_device] the second turn prints its banner and no
    data line at all before the division by zero ends it. *)
Lemma fewer_lines_than_channels :
  (exists w,
     main 2 "board" "01" wrap_device 1 = (Polling, w)
     /\ filter (fun s => String.prefix "Channel(" s = true) (stdout w)
        = ["Channel(1) Data: 0.125664" ++ String "010" ""])
  /\ (exists w1 w2,
        main 2 "board" "01" dead_device 1 = (Polling, w1)
        /\ main 2 "board" "01" dead_device 2 = (Uncaught ZeroDivisionError, w2)
        /\ stdout w2
           = app (stdout w1)
               [ String "027" "[1;1H";
                 "Please enter CTRL + C to terminate the process"
                   ++ String "010" (String "010" "");
                 "Active DAQ device: board (01)" ++ String "010" (String "010" "") ]).
Proof.
  split.
  - eexists. split; [vm_compute; reflexivity|]. vm_compute. reflexivity.
  - eexists _, _. split; [vm_compute; reflexivity|].
    split; [vm_compute; reflexivity|]. vm_compute. reflexivity.
Qed.


(** ** C10 *)



(** ** Runs that end, and runs on other benches *)

Lemma uncaught_comes_from_device_example :
  fst (main 2 "" "" (failing_device ULException) 2) = Uncaught ULException
  /\ (ULException = ZeroDivisionError
      \/ exists k c, failing_device ULException k c = Raise ULException).
Proof.
  split; [reflexivity|].
  apply (uncaught_comes_from_device (H := binary64) 2 "" "" _ 2). reflexivity.
Defined.

Lemma reference_read_raises_example :
  (exists w,
     main 2 "" "" (failing_device (RuntimeError "lost")) 1 = (Polling, w)
     /\ forall extra,
          main 2 "" "" (failing_device (RuntimeError "lost")) (2 + extra)
          = (Returned,
             World (data_vol_pre w) (data_vol_incr w)
               (app (stdout w)
                  [ String "027" "[1;1H";
                    "Please enter CTRL + C to terminate the process"
                      ++ String "010" (String "010" "");
                    "Active DAQ device:  ()" ++ String "010" (String "010" "");
                    String "010" (" lost" ++ String "010" "") ])))
  /\ (exists w,
        main 2 "" "" (failing_device KeyboardInterrupt) 1 = (Polling, w)
        /\ forall extra,
             fst (main 2 "" "" (failing_device KeyboardInterrupt) (2 + extra))
             = Returned)
  /\ (exists w,
        main 2 "" "" (failing_device ValueError) 1 = (Polling, w)
        /\ forall extra,
             fst (main 2 "" "" (failing_device ValueError) (2 + extra))
             = Returned)
  /\ (exists w,
        main 2 "" "" (failing_device ULException) 1 = (Polling, w)
        /\ forall extra,
             fst (main 2 "" "" (failing_device ULException) (2 + extra))
             = Uncaught ULException).
Proof.
  assert (Hrun : forall e,
    (forall k c, k <= 1 -> c <= 7 -> failing_device e k c = Return (wrap_volt k c))
    /\ (forall k, 1 <= k <= 1 -> is_zero (wrap_volt k 0) = false)
    /\ failing_device e 2 0 = Raise e).
  { intros e. split; [|split; [intros k _; reflexivity|reflexivity]].
    intros [|[|k]] c Hk _; [reflexivity|reflexivity|lia]. }
  split; [|split; [|split]].
  - destruct (Hrun (RuntimeError "lost")) as (H1 & H2 & H3).
    destruct (reference_read_raises (H := binary64) 2 "" ""
                (failing_device (RuntimeError "lost")) wrap_volt 1
                (RuntimeError "lost") H1 H2 H3) as (w & Hw & Hend).
    exists w. split; [exact Hw|]. intros extra. rewrite (Hend extra).
    cbv zeta. rewrite <- app_assoc. reflexivity.
  - destruct (Hrun KeyboardInterrupt) as (H1 & H2 & H3).
    destruct (reference_read_raises (H := binary64) 2 "" ""
                (failing_device KeyboardInterrupt) wrap_volt 1
                KeyboardInterrupt H1 H2 H3) as (w & Hw & Hend).
    exists w. split; [exact Hw|]. intros extra. now rewrite (Hend extra).
  - destruct (Hrun ValueError) as (H1 & H2 & H3).
    destruct (reference_read_raises (H := binary64) 2 "" ""
                (failing_device ValueError) wrap_volt 1
                ValueError H1 H2 H3) as (w & Hw & Hend).
    exists w. split; [exact Hw|]. intros extra. now rewrite (Hend extra).
  - destruct (Hrun ULException) as (H1 & H2 & H3).
    destruct (reference_read_raises (H := binary64) 2 "" ""
                (failing_device ULException) wrap_volt 1
                ULException H1 H2 H3) as (w & Hw & Hend).
    exists w. split; [exact Hw|]. intros extra. now rewrite (Hend extra).
Defined.

Lemma initial_read_raises_example :
  exists w,
    main 2 "" "" (unready_device ValueError) 5 = (Uncaught ValueError, w)
    /\ stdout w = []
    /\ data_vol_incr w = replicate 8 0%float.
Proof.
  destruct (initial_read_raises (H := binary64) 2 "" ""
              (unready_device ValueError) 1 ValueError 5)
    as (w & Hmain & Hout & Hincr & _).
  - vm_compute. discriminate.
  - intros [|c'] Hc; [|lia]. eexists. reflexivity.
  - reflexivity.
  - exists w. split; [exact Hmain|]. split; [exact Hout|exact Hincr].
Defined.

Lemma no_channel_to_sweep_example :
  exists w,
    main 1 "d" "u" wrap_device 3 = (Polling, w)
    /\ data_vol_incr w = replicate 8 0%float
    /\ stdout w = (banner "d" "u" ++ banner "d" "u" ++ banner "d" "u")%list.
Proof.
  destruct (no_channel_to_sweep (H := binary64) 1 "d" "u" wrap_device 3)
    as (w & Hmain & Hincr & Hout).
  - lia.
  - intros k _. eexists. reflexivity.
  - exists w. split; [exact Hmain|]. split; [exact Hincr|].
    rewrite Hout. cbn [replicate concat]. now rewrite app_nil_r.
Defined.

Lemma other_channels_not_consulted_example :
  main 3 "" "" wrap_device 4 = main 3 "" "" narrow_device 4.
Proof.
  apply (other_channels_not_consulted (H := binary64) 3 "" ""
           wrap_device narrow_device 4).
  intros k c Hc. unfold narrow_device, wrap_device.
  destruct (Nat.ltb_spec c 3); [reflexivity|lia].
Defined.

Lemma previous_voltages_example :
  exists w,
    main 2 "" "" wrap_device 2 = (Polling, w)
    /\ data_vol_pre w = [5.0; 4.8; 0; 0; 0; 0; 0; 0]%float.
Proof.
  destruct (previous_voltages (H := binary64) 2 "" "" wrap_device wrap_volt 2)
    as (w & Hmain & Hlen & Hsw & H0 & Hrest).
  - intros k c _ _. reflexivity.
  - intros k _. reflexivity.
  - exists w. split; [exact Hmain|].
    apply list_eq. intros [|[|c]].
    + rewrite H0; [reflexivity|]. vm_compute. discriminate.
    + rewrite Hsw; [reflexivity|]. apply elem_of_swept. vm_compute. split; discriminate.
    + destruct (Nat.lt_ge_cases (S (S c)) 8) as [Hc|Hc].
      * rewrite Hrest; [|change (high_channel 2) with 1%Z; lia|exact Hc].
        do 6 (destruct c as [|c]; [reflexivity|]). lia.
      * rewrite !lookup_ge_None_2; [reflexivity|simpl; lia|lia].
Defined.


Lemma no_device_found_example :
  whole_main (H := binary64) bare_bench wrap_device 3
  = (Returned,
     Session [line (newline ++ " " ++ "Error: No DAQ devices found")] [] None).
Proof.
  apply (no_device_found (H := binary64) bare_bench wrap_device 3). reflexivity.
Defined.

Lemma invalid_descriptor_index_example :
  exists shown,
    length shown = 4
    /\ whole_main (H := binary64) wrong_index_bench wrap_device 3
       = (Returned,
          Session (shown ++ [line (newline ++ " " ++ "Error: Invalid descriptor index")])
            [] None).
Proof.
  apply (invalid_descriptor_index (H := binary64) wrong_index_bench wrap_device 3 2).
  - discriminate.
  - reflexivity.
  - right. simpl. lia.
Defined.

Lemma typed_raises_example :
  exists shown,
    whole_main (H := binary64) mistyped_bench wrap_device 3
    = (Uncaught ValueError, Session shown [] None).
Proof.
  apply (typed_raises (H := binary64) mistyped_bench wrap_device 3 ValueError).
  - discriminate.
  - reflexivity.
  - discriminate.
Defined.

Lemma no_analog_input_example :
  exists shown d,
    [board; other_board] !! 0 = Some d
    /\ whole_main (H := binary64) digital_bench wrap_device 3
       = (Returned,
          Session (shown ++ [line (newline ++ " " ++ no_analog_input_message)])
            [Release] (Some d)).
Proof.
  apply (no_analog_input (H := binary64) digital_bench wrap_device 3 0).
  - discriminate.
  - reflexivity.
  - simpl. lia.
  - reflexivity.
Defined.

Lemma no_range_example :
  fst (whole_main (H := binary64) rangeless_bench wrap_device 3) = Uncaught IndexError
  /\ calls (snd (whole_main (H := binary64) rangeless_bench wrap_device 3))
     = [Connect; Disconnect; Release].
Proof.
  apply (no_range (H := binary64) rangeless_bench wrap_device 3 0).
  - discriminate.
  - reflexivity.
  - simpl. lia.
  - reflexivity.
  - reflexivity.
  - reflexivity.
Defined.

Lemma setup_then_loop_example :
  exists d,
    [board; other_board] !! 1 = Some d
    /\ (SINGLE_ENDED = SINGLE_ENDED <-> (0 < 16)%Z)
    /\ whole_main (H := binary64) good_bench wrap_device 2
       = (Polling,
          Session
            (stdout (snd (main 16 "USB-1208FS (0FFF)" "0FFF" wrap_device 2)))
            [Connect] (Some d)).
Proof.
  apply (setup_then_loop (H := binary64) good_bench wrap_device 2 1
           "BIP10VOLTS" ["BIP5VOLTS"]).
  - discriminate.
  - reflexivity.
  - simpl. lia.
  - reflexivity.
  - reflexivity.
  - reflexivity.
  - left. reflexivity.
Defined.
